(** * SampSharp plugin bridge: lifecycle and public-call dispatch

    A shallow embedding of [src/SampSharp/main.cpp].  The plugin keeps one
    file-level flag ([filterscript_loaded]) and drives two external handles
    ([MonoRuntime], [GameMode]); every other effect is a call into the host
    server, the sampgdk layer, the mono helper or the logger.  The embedding
    threads an explicit [world] through a small state monad and records each
    external call, in program order, in the world's [trace]. *)

From Stdlib Require Import ZArith List Bool Lia.
From Stdlib Require Import Ascii String DecimalString.
Import ListNotations.

Local Open Scope string_scope.
Local Open Scope Z_scope.

(** ** Data *)

(** The [AMX *amx], [cell *params], [cell *retval] arguments of a public
    call.  The bridge never inspects them; it hands them on unchanged. *)
Record call_context : Type := {
  amx : Z;
  params : Z;
  retval : Z
}.

(** Calls that leave main.cpp, in the order they are made. *)
Inductive event : Type :=
| EvLogprintf (line : string)
| EvSendRconCommand (command : string)
| EvSetCodepage (codepage : Z)
| EvMonoConvertSymbols (path : string)
| EvMonoRuntimeLoad (assemblyDir configDir traceLevel file : string)
| EvMonoRuntimeUnload
| EvGameModeLoad (namespaceName className : string)
| EvGameModeUnload
| EvGameModeProcessTick
| EvGameModeProcessPublicCall (name : string) (ctx : call_context)
| EvSampgdkLoad (ppData : list Z)
| EvSampgdkUnload
| EvSampgdkProcessTick
| EvConfigRead.

(** What main.cpp reads but does not own: the configuration snapshot, the
    directories of [PathUtil], the file system as seen by [std::ifstream],
    the outcome of the calls whose result the bridge inspects, and the
    constants of the plugin SDK headers. *)
Record Host : Type := {
  cfg_symbol_files : string;
  cfg_mono_assembly_dir : string;
  cfg_mono_config_dir : string;
  cfg_trace_level : string;
  cfg_codepage : Z;
  cfg_gamemode_namespace : string;
  cfg_gamemode_class : string;
  plugin_binary_directory : string;
  gamemode_directory : string;
  (** [std::ifstream ifile(path)] followed by [!ifile] *)
  file_openable : string -> bool;
  (** result of [GameMode::Load], which may depend on everything that
      happened before the call *)
  gamemode_load_succeeds : list event -> bool;
  (** result of [sampgdk::Load(ppData)] *)
  sampgdk_load_succeeds : list Z -> bool;
  sampgdk_supports : Z;
  PLUGIN_VERSION : string;
  PLUGIN_DATA_AMX_EXPORTS : nat;
  SUPPORTS_PROCESS_TICK : Z
}.

(** The mutable state of the process: the global of main.cpp, the global
    [pAMXFunctions], the two handles' lifecycle flags and the calls made so
    far. *)
Record world : Type := {
  filterscript_loaded : bool;
  pAMXFunctions : Z;
  gamemode_loaded : bool;
  mono_loaded : bool;
  trace : list event
}.

(** [bool filterscript_loaded = false;] and nothing loaded, nothing called. *)
Definition initial_world : world :=
  {| filterscript_loaded := false;
     pAMXFunctions := 0;
     gamemode_loaded := false;
     mono_loaded := false;
     trace := [] |}.

Definition set_filterscript_loaded (b : bool) (w : world) : world :=
  {| filterscript_loaded := b;
     pAMXFunctions := pAMXFunctions w;
     gamemode_loaded := gamemode_loaded w;
     mono_loaded := mono_loaded w;
     trace := trace w |}.

Definition set_pAMXFunctions (p : Z) (w : world) : world :=
  {| filterscript_loaded := filterscript_loaded w;
     pAMXFunctions := p;
     gamemode_loaded := gamemode_loaded w;
     mono_loaded := mono_loaded w;
     trace := trace w |}.

Definition set_gamemode_loaded (b : bool) (w : world) : world :=
  {| filterscript_loaded := filterscript_loaded w;
     pAMXFunctions := pAMXFunctions w;
     gamemode_loaded := b;
     mono_loaded := mono_loaded w;
     trace := trace w |}.

Definition set_mono_loaded (b : bool) (w : world) : world :=
  {| filterscript_loaded := filterscript_loaded w;
     pAMXFunctions := pAMXFunctions w;
     gamemode_loaded := gamemode_loaded w;
     mono_loaded := b;
     trace := trace w |}.

(** The world after the calls [evs] have been made, in that order. *)
Definition add_trace (evs : list event) (w : world) : world :=
  {| filterscript_loaded := filterscript_loaded w;
     pAMXFunctions := pAMXFunctions w;
     gamemode_loaded := gamemode_loaded w;
     mono_loaded := mono_loaded w;
     trace := trace w ++ evs |}.

(** ** The monad of the embedding

    A computation takes the world and returns a value with the new world,
    or [None] when a loop of the model has used up its fuel. *)
Definition M (A : Type) : Type := world -> option (A * world).

Definition ret {A : Type} (a : A) : M A := fun w => Some (a, w).

Definition bind {A B : Type} (m : M A) (f : A -> M B) : M B :=
  fun w => match m w with
           | Some (a, w') => f a w'
           | None => None
           end.

Definition out_of_fuel {A : Type} : M A := fun _ => None.

Declare Scope bridge_scope.
Delimit Scope bridge_scope with bridge.
Notation "x <- c1 ;; c2" := (bind c1 (fun x => c2))
  (at level 100, c1 at next level, right associativity) : bridge_scope.
Notation "c1 ;; c2" := (bind c1 (fun _ => c2))
  (at level 100, right associativity) : bridge_scope.
Local Open Scope bridge_scope.

Definition get {A : Type} (f : world -> A) : M A := fun w => Some (f w, w).
Definition modify (f : world -> world) : M unit := fun w => Some (tt, f w).
Definition emit (e : event) : M unit := modify (add_trace [e]).

(** [if (c) body] with no else branch. *)
Definition when (c : bool) (body : M unit) : M unit :=
  if c then body else ret tt.

(** ** C library and C++ standard library *)

Definition uchar (c : ascii) : Z := Z.of_N (N_of_ascii c).

(** [strcmp]: a [const char *] is represented by the characters before its
    terminating NUL, so the end of a string is below every character.  The
    C standard fixes only the sign of the result, which is that of the
    difference of the first pair of characters that differ (as
    [unsigned char]). *)
Fixpoint strcmp (a b : string) : Z :=
  match a, b with
  | EmptyString, EmptyString => 0
  | EmptyString, String _ _ => -1
  | String _ _, EmptyString => 1
  | String c a', String d b' =>
      if Ascii.eqb c d then strcmp a' b'
      else if uchar c <? uchar d then -1 else 1
  end.

(** One [std::getline(is, str, delim)] on the unread input [s]: characters
    are taken up to and without the first [delim], which is consumed, or up
    to the end of the input. *)
Fixpoint getline_chars (delim : ascii) (s : string) : string * string :=
  match s with
  | EmptyString => (EmptyString, EmptyString)
  | String c s' =>
      if Ascii.eqb c delim then (EmptyString, s')
      else let (str, rest) := getline_chars delim s' in (String c str, rest)
  end.

(** The stream converts to [false] (here [None]) exactly when the call
    extracted no character at all, which happens only at the end of the
    input; otherwise the line read and the unread input are returned. *)
Definition getline (delim : ascii) (s : string) : option (string * string) :=
  match s with
  | EmptyString => None
  | String _ _ => Some (getline_chars delim s)
  end.

(** The conversion [%d] of [printf]. *)
Definition fmt_d (n : Z) : string := NilZero.string_of_int (Z.to_int n).

(** ** External collaborators *)

Definition logprintf (line : string) : M unit := emit (EvLogprintf line).

Definition SendRconCommand (command : string) : M unit :=
  emit (EvSendRconCommand command).

Definition set_codepage (codepage : Z) : M unit := emit (EvSetCodepage codepage).

Definition mono_convert_symbols (path : string) : M unit :=
  emit (EvMonoConvertSymbols path).

(** Modelled from the spec: Config.h and its implementation are not part of
    the sources at hand.  The configuration snapshot is read once at attach
    time and is immutable afterwards, so each getter returns the host's
    value and [Read] is only recorded. *)
Module Config.
Definition GetSymbolFiles (h : Host) : string := cfg_symbol_files h.
Definition GetMonoAssemblyDir (h : Host) : string := cfg_mono_assembly_dir h.
Definition GetMonoConfigDir (h : Host) : string := cfg_mono_config_dir h.
Definition GetTraceLevel (h : Host) : string := cfg_trace_level h.
Definition GetCodepage (h : Host) : Z := cfg_codepage h.
Definition GetGameModeNameSpace (h : Host) : string :=
  cfg_gamemode_namespace h.
Definition GetGameModeClass (h : Host) : string := cfg_gamemode_class h.
Definition Read : M unit := emit EvConfigRead.
End Config.

(** Modelled from the spec: the path helpers are declared in a header that
    is not part of the sources at hand.  A path in the plugin's binary
    directory is that directory, a slash and the relative path; the
    game-mode directory is a value of the host. *)
Module PathUtil.
(** Modelled from the spec: [PathUtil::GetPathInBin] is not part of the
    sources at hand; the spec composes the entry assembly as
    <plugin-binary-directory>/gamemode/<namespace>.dll. *)
Definition GetPathInBin (h : Host) (append : string) : string :=
  plugin_binary_directory h ++ "/" ++ append.
(** Modelled from the spec: [PathUtil::GetGameModeDirectory] is not part of
    the sources at hand; the game-mode directory is fixed for the process. *)
Definition GetGameModeDirectory (h : Host) : string := gamemode_directory h.
End PathUtil.

(** Modelled from the spec: MonoRuntime.h and its implementation are not
    part of the sources at hand.  The handle is an opaque lifecycle object:
    once loaded it stays loaded until [Unload], which is safe to call in
    any state. *)
Module MonoRuntime.
(** Modelled from the spec: [MonoRuntime::IsLoaded] observes the runtime's
    lifecycle. *)
Definition IsLoaded : M bool := get mono_loaded.
(** Modelled from the spec: [MonoRuntime::Load] leaves the runtime loaded. *)
Definition Load (assemblyDir configDir traceLevel file : string) : M unit :=
  emit (EvMonoRuntimeLoad assemblyDir configDir traceLevel file) ;;
  modify (set_mono_loaded true).
(** Modelled from the spec: [MonoRuntime::Unload] leaves the runtime
    unloaded, whatever its state was. *)
Definition Unload : M unit :=
  emit EvMonoRuntimeUnload ;;
  modify (set_mono_loaded false).
End MonoRuntime.

(** Modelled from the spec: GameMode.h and its implementation are not part
    of the sources at hand.  The handle is an opaque lifecycle object:
    [Load] reports whether the game mode is now loaded, [Unload] leaves it
    unloaded and is safe to call in any state, and processing a tick or a
    public call does not change the lifecycle. *)
Module GameMode.
(** Modelled from the spec: [GameMode::IsLoaded] observes the game mode's
    lifecycle. *)
Definition IsLoaded : M bool := get gamemode_loaded.
(** Modelled from the spec: [GameMode::Load] returns whether it succeeded,
    and the game mode is loaded afterwards exactly if it did. *)
Definition Load (h : Host) (namespaceName className : string) : M bool :=
  history <- get trace ;;
  emit (EvGameModeLoad namespaceName className) ;;
  let ok := gamemode_load_succeeds h history in
  modify (set_gamemode_loaded ok) ;;
  ret ok.
(** Modelled from the spec: [GameMode::Unload] leaves the game mode
    unloaded, whatever its state was. *)
Definition Unload : M unit :=
  emit EvGameModeUnload ;;
  modify (set_gamemode_loaded false).
(** Modelled from the spec: [GameMode::ProcessTick] makes no lifecycle
    transition. *)
Definition ProcessTick : M unit := emit EvGameModeProcessTick.
(** Modelled from the spec: [GameMode::ProcessPublicCall] hands the event to
    the game mode and makes no lifecycle transition. *)
Definition ProcessPublicCall (name : string) (ctx : call_context) : M unit :=
  emit (EvGameModeProcessPublicCall name ctx).
End GameMode.

(** Modelled from the spec: the sampgdk layer is a library outside the
    sources at hand; only the result of its [Load] is inspected. *)
Module sampgdk.
Definition Supports (h : Host) : Z := sampgdk_supports h.
Definition Load (h : Host) (ppData : list Z) : M bool :=
  emit (EvSampgdkLoad ppData) ;;
  ret (sampgdk_load_succeeds h ppData).
Definition Unload : M unit := emit EvSampgdkUnload.
Definition ProcessTick : M unit := emit EvSampgdkProcessTick.
End sampgdk.

(** ** main.cpp *)

(** The [while (std::getline(symbols_stream, file, ' '))] loop of
    [convertSymbols], with the unread part of the stream and the local
    [successes] as loop state.  Every iteration consumes at least one
    character, so [fuel] above the length of the stream is never used up.
    [successes] is an [int] that counts at most one per character of the
    list, so it is kept as an integer without wrap-around. *)
Fixpoint convertSymbols_loop (h : Host) (fuel : nat) (symbols_stream : string)
    (successes : Z) : M Z :=
  match fuel with
  | O => out_of_fuel
  | S fuel' =>
      match getline " " symbols_stream with
      | None => ret successes
      | Some (file, symbols_stream') =>
          logprintf ("Converting: " ++ file) ;;
          let path := PathUtil.GetGameModeDirectory h ++ file in
          let ifile := file_openable h path in
          if (file =? "")%string || negb ifile then
            logprintf "  Failed." ;;
            convertSymbols_loop h fuel' symbols_stream' successes
          else
            mono_convert_symbols path ;;
            let successes := successes + 1 in
            logprintf "  Converted." ;;
            convertSymbols_loop h fuel' symbols_stream' successes
      end
  end.

Definition convertSymbols (h : Host) : M unit :=
  let symbols := Config.GetSymbolFiles h in
  when (0 <? Z.of_nat (String.length symbols))
    (logprintf "Symbol file generation" ;;
     logprintf "----------------------" ;;
     successes <- convertSymbols_loop h (S (String.length symbols)) symbols 0 ;;
     logprintf (" Converted " ++ fmt_d successes ++ " files.") ;;
     logprintf "").

Definition loadGamemode (h : Host) : M unit :=
  loaded <- GameMode.IsLoaded ;;
  if loaded then ret tt else
  (* Load empty filterscript *)
  fs <- get filterscript_loaded ;;
  when (negb fs)
    (SendRconCommand "loadfs empty" ;;
     modify (set_filterscript_loaded true)) ;;
  (* Load mono *)
  mono <- MonoRuntime.IsLoaded ;;
  when (negb mono)
    (MonoRuntime.Load (Config.GetMonoAssemblyDir h)
       (Config.GetMonoConfigDir h) (Config.GetTraceLevel h)
       (PathUtil.GetPathInBin h "gamemode/"
          ++ Config.GetGameModeNameSpace h ++ ".dll")) ;;
  (* Set initial codepage to the configured one. *)
  let codepage := Config.GetCodepage h in
  set_codepage codepage ;;
  convertSymbols h ;;
  (* Load game mode *)
  let namespaceName := Config.GetGameModeNameSpace h in
  let className := Config.GetGameModeClass h in
  logprintf "Gamemode" ;;
  logprintf "---------------" ;;
  logprintf ("Loading gamemode: " ++ namespaceName ++ ":" ++ className) ;;
  ok <- GameMode.Load h (Config.GetGameModeNameSpace h)
          (Config.GetGameModeClass h) ;;
  (if ok then logprintf "  Loaded." else logprintf "  Failed.") ;;
  logprintf "".

Definition unloadGamemode (h : Host) : M unit :=
  loaded <- GameMode.IsLoaded ;;
  if negb loaded then ret tt else
  let namespase := Config.GetGameModeNameSpace h in
  let klass := Config.GetGameModeClass h in
  logprintf "" ;;
  logprintf "---------------" ;;
  logprintf ("Unloading gamemode: " ++ namespase ++ ":" ++ klass) ;;
  GameMode.Unload ;;
  logprintf "  Unloaded." ;;
  logprintf "".

Definition Supports (h : Host) : Z :=
  Z.lor (sampgdk.Supports h) (SUPPORTS_PROCESS_TICK h).

(** [ppData] is the host's table of pointers; the entry read is present in
    every table a server passes, and reads as 0 here if it is not. *)
Definition Load (h : Host) (ppData : list Z) : M bool :=
  ok <- sampgdk.Load h ppData ;;
  if negb ok then ret false else
  modify (set_pAMXFunctions (nth (PLUGIN_DATA_AMX_EXPORTS h) ppData 0)) ;;
  logprintf "" ;;
  logprintf "SampSharp Plugin" ;;
  logprintf "----------------" ;;
  logprintf ("v" ++ PLUGIN_VERSION h ++ ", (C)2014-2015 Tim Potze") ;;
  logprintf "" ;;
  Config.Read ;;
  ret true.

Definition Unload : M unit :=
  GameMode.Unload ;;
  MonoRuntime.Unload ;;
  sampgdk.Unload.

Definition ProcessTick : M unit :=
  GameMode.ProcessTick ;;
  sampgdk.ProcessTick.

Definition OnPublicCall (h : Host) (name : string) (ctx : call_context)
    : M bool :=
  (if strcmp name "OnGameModeInit" =? 0 then
     loadGamemode h
   else
     loaded <- GameMode.IsLoaded ;;
     when (loaded && (strcmp name "OnGameModeExit" =? 0))
       ((* Process call before actually unloading the gamemode. *)
        GameMode.ProcessPublicCall name ctx ;;
        unloadGamemode h)) ;;
  loaded <- GameMode.IsLoaded ;;
  when loaded (GameMode.ProcessPublicCall name ctx) ;;
  ret true.


(** ** Reading a trace *)

Definition count (p : event -> bool) (evs : list event) : nat :=
  List.length (List.filter p evs).

Definition is_ProcessPublicCall (e : event) : bool :=
  match e with EvGameModeProcessPublicCall _ _ => true | _ => false end.

Definition is_GameModeUnload (e : event) : bool :=
  match e with EvGameModeUnload => true | _ => false end.

(** The request for the bootstrap filterscript. *)
Definition is_loadfs (e : event) : bool :=
  match e with
  | EvSendRconCommand command => (command =? "loadfs empty")%string
  | _ => false
  end.

Definition is_logprintf (e : event) : bool :=
  match e with EvLogprintf _ => true | _ => false end.

Definition is_convert_call (e : event) : bool :=
  match e with EvMonoConvertSymbols _ => true | _ => false end.

(** The line [convertSymbols] logs for a file it could not convert. *)
Definition is_failure_log (e : event) : bool :=
  match e with EvLogprintf line => (line =? "  Failed.")%string | _ => false end.

(** The only calls [convertSymbols] makes. *)
Definition symbol_event (e : event) : bool :=
  is_logprintf e || is_convert_call e.

(** ** The host's entry points as a sequence of calls *)

Inductive host_call : Type :=
| CallLoad (ppData : list Z)
| CallUnload
| CallProcessTick
| CallOnPublicCall (name : string) (ctx : call_context).

Definition run_call (h : Host) (c : host_call) : M unit :=
  match c with
  | CallLoad ppData => _ <- Load h ppData ;; ret tt
  | CallUnload => Unload
  | CallProcessTick => ProcessTick
  | CallOnPublicCall name ctx => _ <- OnPublicCall h name ctx ;; ret tt
  end.

Fixpoint run_calls (h : Host) (cs : list host_call) : M unit :=
  match cs with
  | [] => ret tt
  | c :: cs' => run_call h c ;; run_calls h cs'
  end.

(** ** Expected calls of the load and unload sequences *)

(** The request for the bootstrap filterscript, made unless it has been
    made before. *)
Definition filterscript_request (w : world) : list event :=
  if filterscript_loaded w then []
  else [EvSendRconCommand "loadfs empty"].

(** The load of the managed runtime, made unless it is loaded. *)
Definition runtime_load (h : Host) (w : world) : list event :=
  if mono_loaded w then []
  else [EvMonoRuntimeLoad (cfg_mono_assembly_dir h) (cfg_mono_config_dir h)
          (cfg_trace_level h)
          (plugin_binary_directory h ++ "/gamemode/"
             ++ cfg_gamemode_namespace h ++ ".dll")].

(** The three lines logged before [GameMode::Load]. *)
Definition load_banner (h : Host) : list event :=
  [EvLogprintf "Gamemode";
   EvLogprintf "---------------";
   EvLogprintf ("Loading gamemode: " ++ cfg_gamemode_namespace h ++ ":"
                  ++ cfg_gamemode_class h)].

(** The three lines logged before [GameMode::Unload]. *)
Definition unload_banner (h : Host) : list event :=
  [EvLogprintf "";
   EvLogprintf "---------------";
   EvLogprintf ("Unloading gamemode: " ++ cfg_gamemode_namespace h ++ ":"
                  ++ cfg_gamemode_class h)].

(** The bootstrap filterscript has been requested once if the flag is
    set, and never if it is not. *)
Definition loadfs_inv (w : world) : Prop :=
  count is_loadfs (trace w) = if filterscript_loaded w then 1%nat else 0%nat.

(** [w'] follows [w]: the flag has not been cleared, and the count of
    requests still agrees with the flag if it did. *)
Definition loadfs_step (w w' : world) : Prop :=
  (loadfs_inv w -> loadfs_inv w') /\
  Bool.le (filterscript_loaded w) (filterscript_loaded w').

(** ** The names of the symbol list *)

(** The names [std::getline] yields in turn on the stream: the loop of
    [convertSymbols] with its body left out.  As for the loop, [fuel] above
    the length of the stream is never used up. *)
Fixpoint getlines (fuel : nat) (symbols_stream : string) : list string :=
  match fuel with
  | O => []
  | S fuel' =>
      match getline " " symbols_stream with
      | None => []
      | Some (file, symbols_stream') => file :: getlines fuel' symbols_stream'
      end
  end.

Definition symbol_names (h : Host) : list string :=
  let symbols := Config.GetSymbolFiles h in
  getlines (S (String.length symbols)) symbols.

(** The test of the loop body, negated: the name is not empty and its file
    in the game-mode directory can be opened. *)
Definition name_converts (h : Host) (file : string) : bool :=
  negb ((file =? "")%string
        || negb (file_openable h (PathUtil.GetGameModeDirectory h ++ file))).

(** The calls of one iteration of the loop body. *)
Definition name_calls (h : Host) (file : string) : list event :=
  EvLogprintf ("Converting: " ++ file)
  :: (if name_converts h file
      then [EvMonoConvertSymbols (PathUtil.GetGameModeDirectory h ++ file);
            EvLogprintf "  Converted."]
      else [EvLogprintf "  Failed."]).


(** The line logged when the loop takes up a name. *)
Definition is_converting_log (e : event) : bool :=
  match e with
  | EvLogprintf line => String.prefix "Converting: " line
  | _ => false
  end.

Definition is_GameModeLoad (e : event) : bool :=
  match e with EvGameModeLoad _ _ => true | _ => false end.

Definition is_MonoRuntimeLoad (e : event) : bool :=
  match e with EvMonoRuntimeLoad _ _ _ _ => true | _ => false end.



(** ** Reading a public call *)

(** The call arrives with the init event while the game mode is not
    loaded: the first branch of [OnPublicCall] runs the load sequence. *)
Definition starts_load (name : string) (w : world) : bool :=
  negb (gamemode_loaded w) && (name =? "OnGameModeInit")%string.

(** The call arrives with the exit event while the game mode is loaded:
    the second branch of [OnPublicCall] runs the unload sequence. *)
Definition stops_gamemode (name : string) (w : world) : bool :=
  gamemode_loaded w && (name =? "OnGameModeExit")%string.

(** If the call is a [GameMode::ProcessPublicCall], it hands on this event
    with these arguments. *)
Definition delivers (name : string) (ctx : call_context) (e : event) : Prop :=
  match e with
  | EvGameModeProcessPublicCall n c => n = name /\ c = ctx
  | _ => True
  end.

(** ** Reading a sequence of calls *)

(** The game mode is loaded only with the bootstrap filterscript requested
    and the managed runtime loaded. *)
Definition lifecycle_inv (w : world) : Prop :=
  implb (gamemode_loaded w) (filterscript_loaded w && mono_loaded w) = true.

(** The managed runtime has been loaded once if it is loaded, and never if
    it is not. *)
Definition mono_inv (w : world) : Prop :=
  count is_MonoRuntimeLoad (trace w)
  = if mono_loaded w then 1%nat else 0%nat.

Definition not_detach (c : host_call) : bool :=
  match c with CallUnload => false | _ => true end.

(** The events the host raised in a sequence of calls, with their
    arguments. *)
Definition public_calls (cs : list host_call) : list (string * call_context) :=
  flat_map (fun c => match c with
                     | CallOnPublicCall name ctx => [(name, ctx)]
                     | _ => []
                     end) cs.

(** If the call is a [GameMode::ProcessPublicCall], it hands on one of the
    events of [cs]. *)
Definition delivered_from (cs : list host_call) (e : event) : Prop :=
  match e with
  | EvGameModeProcessPublicCall n c => In (n, c) (public_calls cs)
  | _ => True
  end.

(** No call of the sequence raises the init event. *)
Definition not_init (c : host_call) : bool :=
  match c with
  | CallOnPublicCall name _ => negb (name =? "OnGameModeInit")%string
  | _ => true
  end.


(** ** Sample hosts *)

Definition sample_host (symbols : string) (load_ok : bool) : Host :=
  {| cfg_symbol_files := symbols;
     cfg_mono_assembly_dir := "mono/lib";
     cfg_mono_config_dir := "mono/etc";
     cfg_trace_level := "error";
     cfg_codepage := 1252;
     cfg_gamemode_namespace := "TestMode";
     cfg_gamemode_class := "GameMode";
     plugin_binary_directory := "/srv/samp";
     gamemode_directory := "/srv/samp/gamemode/";
     file_openable := fun path => (path =? "/srv/samp/gamemode/a.dbg")%string;
     gamemode_load_succeeds := fun _ => load_ok;
     sampgdk_load_succeeds := fun _ => true;
     sampgdk_supports := 512;
     PLUGIN_VERSION := "0.6.2";
     PLUGIN_DATA_AMX_EXPORTS := 16;
     SUPPORTS_PROCESS_TICK := 131072 |}.

Definition sample_ctx : call_context := {| amx := 1; params := 2; retval := 3 |}.

(** A world in which the game mode is loaded. *)
Definition loaded_world : world :=
  {| filterscript_loaded := true;
     pAMXFunctions := 0;
     gamemode_loaded := true;
     mono_loaded := true;
     trace := [] |}.

(** ** Basic facts *)

Lemma strcmp_refl (a : string) : strcmp a a = 0.
Proof.
  induction a as [|c a IH]; simpl; [reflexivity|].
  now rewrite Ascii.eqb_refl.
Qed.

Lemma strcmp_eq_0 (a b : string) : strcmp a b = 0 <-> a = b.
Proof.
  split; [|intros ->; apply strcmp_refl].
  revert b; induction a as [|c a IH]; intros [|d b]; simpl; try easy.
  destruct (Ascii.eqb_spec c d) as [->|Hcd].
  - intros H; f_equal; auto.
  - destruct (uchar c <? uchar d); discriminate.
Qed.

Lemma strcmp_eqb (a b : string) : (strcmp a b =? 0) = (a =? b)%string.
Proof.
  destruct (String.eqb_spec a b) as [->|Hab].
  - now rewrite strcmp_refl.
  - apply Z.eqb_neq. now rewrite strcmp_eq_0.
Qed.

Lemma add_trace_nil (w : world) : add_trace [] w = w.
Proof. destruct w; unfold add_trace; simpl. now rewrite app_nil_r. Qed.

Lemma add_trace_app (l1 l2 : list event) (w : world) :
  add_trace l2 (add_trace l1 w) = add_trace (l1 ++ l2) w.
Proof. unfold add_trace; simpl. now rewrite app_assoc. Qed.

Lemma count_app (p : event -> bool) (l1 l2 : list event) :
  count p (l1 ++ l2) = (count p l1 + count p l2)%nat.
Proof. unfold count. now rewrite filter_app, length_app. Qed.

Lemma count_none (p q : event -> bool) (evs : list event) :
  (forall e, q e = true -> p e = false) ->
  forallb q evs = true -> count p evs = 0%nat.
Proof.
  intros Hpq; induction evs as [|e evs IH]; simpl; [reflexivity|].
  intros H; apply andb_prop in H as [He Hevs].
  unfold count in *; simpl. now rewrite (Hpq e He), IH.
Qed.

Lemma getline_chars_length (delim : ascii) (s : string) :
  (String.length (snd (getline_chars delim s)) <= String.length s)%nat.
Proof.
  induction s as [|c s IH]; simpl; [lia|].
  destruct (Ascii.eqb c delim); simpl; [lia|].
  destruct (getline_chars delim s); simpl in *; lia.
Qed.

Lemma getline_chars_shorter (delim c : ascii) (s : string) :
  (String.length (snd (getline_chars delim (String c s))) <= String.length s)%nat.
Proof.
  simpl. destruct (Ascii.eqb c delim); simpl; [lia|].
  pose proof (getline_chars_length delim s) as H.
  destruct (getline_chars delim s); simpl in *; lia.
Qed.

Lemma bind_emit {B : Type} (e : event) (k : unit -> M B) (w : world) :
  bind (emit e) k w = k tt (add_trace [e] w).
Proof. reflexivity. Qed.

(** ** The symbol-conversion loop *)

(** The loop returns for every stream when the fuel exceeds the stream's
    length; the calls it makes do not depend on the world it starts in and
    are log lines and conversion calls only. *)
Lemma convertSymbols_loop_runs (h : Host) :
  forall (fuel : nat) (stream : string) (n : Z),
    (String.length stream < fuel)%nat ->
    exists (n' : Z) (evs : list event),
      forallb symbol_event evs = true /\
      forall w, convertSymbols_loop h fuel stream n w
                = Some (n', add_trace evs w).
Proof.
  induction fuel as [|fuel IH]; intros stream n Hlen; [lia|].
  destruct stream as [|c s].
  - exists n, []. split; [reflexivity|].
    intros w; simpl. now rewrite add_trace_nil.
  - cbn [convertSymbols_loop getline].
    pose proof (getline_chars_shorter " " c s) as Hrest.
    destruct (getline_chars " " (String c s)) as [file rest].
    cbn [snd] in Hrest. cbn [String.length] in Hlen.
    assert (Hlt : (String.length rest < fuel)%nat) by lia.
    unfold logprintf, mono_convert_symbols.
    destruct ((file =? "")%string
              || negb (file_openable h (PathUtil.GetGameModeDirectory h ++ file))).
    + destruct (IH rest n Hlt) as (n' & evs & Hevs & Hrun).
      exists n', ([EvLogprintf ("Converting: " ++ file);
                   EvLogprintf "  Failed."] ++ evs)%list.
      split; [exact Hevs|].
      intros w. rewrite !bind_emit, Hrun, !add_trace_app. reflexivity.
    + destruct (IH rest (n + 1) Hlt) as (n' & evs & Hevs & Hrun).
      exists n', ([EvLogprintf ("Converting: " ++ file);
                   EvMonoConvertSymbols (PathUtil.GetGameModeDirectory h ++ file);
                   EvLogprintf "  Converted."] ++ evs)%list.
      split; [exact Hevs|].
      intros w. rewrite !bind_emit, Hrun, !add_trace_app. reflexivity.
Qed.

(** [convertSymbols] always returns; its calls are the same in every world. *)
Lemma convertSymbols_runs (h : Host) :
  exists evs : list event,
    forallb symbol_event evs = true /\
    forall w, convertSymbols h w = Some (tt, add_trace evs w).
Proof.
  unfold convertSymbols, when.
  destruct (0 <? Z.of_nat (String.length (Config.GetSymbolFiles h))).
  - destruct (convertSymbols_loop_runs h
                (S (String.length (Config.GetSymbolFiles h)))
                (Config.GetSymbolFiles h) 0 (Nat.lt_succ_diag_r _))
      as (n' & evs & Hevs & Hrun).
    exists ([EvLogprintf "Symbol file generation";
             EvLogprintf "----------------------"] ++ evs
            ++ [EvLogprintf (" Converted " ++ fmt_d n' ++ " files.");
                EvLogprintf ""])%list.
    split.
    + cbn [app forallb symbol_event is_logprintf orb andb].
      rewrite forallb_app, Hevs. reflexivity.
    + intros w. unfold logprintf. rewrite !bind_emit.
      unfold bind at 1. rewrite Hrun. rewrite !bind_emit.
      unfold emit, modify. rewrite !add_trace_app. reflexivity.
  - exists []. split; [reflexivity|].
    intros w. unfold ret. now rewrite add_trace_nil.
Qed.

(** ** The load and unload sequences *)

Lemma string_append_assoc (a b c : string) : (a ++ b) ++ c = a ++ b ++ c.
Proof. induction a as [|x a IH]; simpl; [reflexivity|now rewrite IH]. Qed.

(** The entry assembly: the game mode's namespace, with [.dll], in the
    [gamemode] directory of the plugin's binary directory. *)
Lemma entry_assembly_path (h : Host) :
  PathUtil.GetPathInBin h "gamemode/" ++ Config.GetGameModeNameSpace h ++ ".dll"
  = plugin_binary_directory h ++ "/gamemode/" ++ cfg_gamemode_namespace h
      ++ ".dll".
Proof.
  unfold PathUtil.GetPathInBin, Config.GetGameModeNameSpace.
  now rewrite !string_append_assoc.
Qed.

(** Brings appended traces to one right-nested list. *)
Ltac norm_trace := repeat (progress (rewrite <- ?app_assoc; cbn [app])).

Ltac run_monad :=
  cbv [bind get modify emit ret when
       logprintf SendRconCommand set_codepage mono_convert_symbols
       GameMode.IsLoaded GameMode.Load GameMode.Unload
       GameMode.ProcessTick GameMode.ProcessPublicCall
       MonoRuntime.IsLoaded MonoRuntime.Load MonoRuntime.Unload
       sampgdk.Load sampgdk.Unload sampgdk.ProcessTick
       Config.Read Config.GetSymbolFiles Config.GetMonoAssemblyDir
       Config.GetMonoConfigDir Config.GetTraceLevel Config.GetCodepage
       Config.GetGameModeNameSpace Config.GetGameModeClass
       PathUtil.GetPathInBin PathUtil.GetGameModeDirectory
       add_trace set_filterscript_loaded set_gamemode_loaded set_mono_loaded
       set_pAMXFunctions
       filterscript_loaded pAMXFunctions gamemode_loaded mono_loaded trace
       negb andb orb].

(** What [loadGamemode] does when the game mode is not loaded: it returns,
    and its calls are, in order, the filterscript request, the runtime
    load, the codepage, the symbol conversion, the banner and
    [GameMode::Load], whose result decides the line logged next and the
    handle's state. *)
Lemma loadGamemode_runs (h : Host) (w : world) :
  gamemode_loaded w = false ->
  exists (sym : list event) (w' : world),
    forallb symbol_event sym = true /\
    (forall w0, convertSymbols h w0 = Some (tt, add_trace sym w0)) /\
    loadGamemode h w = Some (tt, w') /\
    let history := (trace w ++ filterscript_request w ++ runtime_load h w
                      ++ [EvSetCodepage (cfg_codepage h)] ++ sym
                      ++ load_banner h)%list in
    let ok := gamemode_load_succeeds h history in
    trace w' = (history
                  ++ [EvGameModeLoad (cfg_gamemode_namespace h)
                        (cfg_gamemode_class h);
                      EvLogprintf (if ok then "  Loaded." else "  Failed.");
                      EvLogprintf ""])%list /\
    gamemode_loaded w' = ok /\
    filterscript_loaded w' = true /\
    mono_loaded w' = true /\
    pAMXFunctions w' = pAMXFunctions w.
Proof.
  intros Hgm.
  destruct (convertSymbols_runs h) as (sym & Hsym & Hconv).
  exists sym.
  unfold loadGamemode, filterscript_request, runtime_load, load_banner.
  rewrite entry_assembly_path.
  destruct w as [fs amxf gm mono tr]; cbn [gamemode_loaded] in Hgm; subst gm.
  destruct fs, mono; run_monad; rewrite Hconv; run_monad.
  all: cbv zeta; norm_trace.
  all: destruct (gamemode_load_succeeds h _).
  all: eexists; split; [exact Hsym|]; split; [exact Hconv|].
  all: split; [reflexivity|].
  all: cbn [trace gamemode_loaded filterscript_loaded mono_loaded pAMXFunctions].
  all: norm_trace; repeat split; reflexivity.
Qed.

(** What [unloadGamemode] does when the game mode is loaded. *)
Lemma unloadGamemode_runs (h : Host) (w : world) :
  gamemode_loaded w = true ->
  unloadGamemode h w
  = Some (tt, add_trace [EvLogprintf "  Unloaded."; EvLogprintf ""]
                (set_gamemode_loaded false
                   (add_trace (unload_banner h ++ [EvGameModeUnload]) w))).
Proof.
  intros Hgm. destruct w as [fs amxf gm mono tr].
  cbn [gamemode_loaded] in Hgm; subst gm.
  unfold unloadGamemode, unload_banner. run_monad. norm_trace. reflexivity.
Qed.

(** ** Dispatch of public calls *)

(** C1: for an event name other than "OnGameModeInit" and "OnGameModeExit",
    OnPublicCall returns true and its only call is one
    GameMode::ProcessPublicCall with that event when the game mode is
    loaded; when it is not loaded it makes no call at all. *)
Theorem OnPublicCall_other_event (h : Host) (name : string)
    (ctx : call_context) (w : world) :
  name <> "OnGameModeInit" ->
  name <> "OnGameModeExit" ->
  let calls := if gamemode_loaded w
               then [EvGameModeProcessPublicCall name ctx] else [] in
  OnPublicCall h name ctx w = Some (true, add_trace calls w) /\
  count is_ProcessPublicCall calls
  = (if gamemode_loaded w then 1%nat else 0%nat).
Proof.
  intros Hinit Hexit calls; subst calls.
  unfold OnPublicCall. rewrite !strcmp_eqb.
  destruct (String.eqb_spec name "OnGameModeInit") as [|_]; [contradiction|].
  destruct (String.eqb_spec name "OnGameModeExit") as [|_]; [contradiction|].
  destruct w as [fs amxf gm mono tr].
  destruct gm; run_monad; rewrite ?app_nil_r; split; reflexivity.
Qed.

Lemma OnPublicCall_other_event_witness :
  OnPublicCall (sample_host "" true) "OnPlayerConnect" sample_ctx loaded_world
  = Some (true,
          add_trace [EvGameModeProcessPublicCall "OnPlayerConnect" sample_ctx]
            loaded_world).
Proof.
  apply (OnPublicCall_other_event (sample_host "" true) "OnPlayerConnect"
           sample_ctx loaded_world); discriminate.
Defined.

(** C2: when "OnGameModeExit" arrives while the game mode is loaded,
    GameMode::ProcessPublicCall is called once, with the exit event, as the
    first call; GameMode::Unload is called after it; the game mode is not
    loaded when OnPublicCall returns, and nothing is forwarded after the
    unload. *)
Theorem OnPublicCall_exit_when_loaded (h : Host) (ctx : call_context)
    (w : world) :
  gamemode_loaded w = true ->
  let calls := (EvGameModeProcessPublicCall "OnGameModeExit" ctx
                  :: unload_banner h
                  ++ [EvGameModeUnload;
                      EvLogprintf "  Unloaded."; EvLogprintf ""])%list in
  exists w' : world,
    OnPublicCall h "OnGameModeExit" ctx w = Some (true, w') /\
    trace w' = (trace w ++ calls)%list /\
    count is_ProcessPublicCall calls = 1%nat /\
    count is_GameModeUnload calls = 1%nat /\
    (exists before after : list event,
       calls = (before ++ EvGameModeUnload :: after)%list /\
       count is_ProcessPublicCall before = 1%nat /\
       count is_ProcessPublicCall after = 0%nat) /\
    gamemode_loaded w' = false /\
    mono_loaded w' = mono_loaded w /\
    filterscript_loaded w' = filterscript_loaded w /\
    pAMXFunctions w' = pAMXFunctions w.
Proof.
  intros Hgm calls; subst calls.
  destruct w as [fs amxf gm mono tr].
  cbn [gamemode_loaded] in Hgm; subst gm.
  unfold OnPublicCall, unloadGamemode, unload_banner.
  rewrite !strcmp_eqb. cbn [String.eqb Ascii.eqb Bool.eqb].
  run_monad. norm_trace.
  eexists; split; [reflexivity|].
  split; [reflexivity|]. split; [reflexivity|]. split; [reflexivity|].
  split; [|repeat split; reflexivity].
  eexists (_ :: _ :: _ :: [_]), _. split; [reflexivity|].
  split; reflexivity.
Qed.

Lemma OnPublicCall_exit_when_loaded_witness :
  exists w' : world,
    OnPublicCall (sample_host "" true) "OnGameModeExit" sample_ctx loaded_world
    = Some (true, w') /\
    gamemode_loaded w' = false.
Proof.
  destruct (OnPublicCall_exit_when_loaded (sample_host "" true) sample_ctx
              loaded_world eq_refl) as (w' & Hrun & _ & _ & _ & _ & Hgm & _).
  exists w'. split; [exact Hrun | exact Hgm].
Defined.

(** C10: when "OnGameModeExit" arrives while the game mode is not loaded,
    OnPublicCall returns true and makes no call and changes no state: the
    world it returns is the world it was given. *)
Theorem OnPublicCall_exit_when_not_loaded (h : Host) (ctx : call_context)
    (w : world) :
  gamemode_loaded w = false ->
  OnPublicCall h "OnGameModeExit" ctx w = Some (true, w).
Proof.
  intros Hgm. destruct w as [fs amxf gm mono tr].
  cbn [gamemode_loaded] in Hgm; subst gm.
  unfold OnPublicCall. rewrite !strcmp_eqb. cbn [String.eqb Ascii.eqb Bool.eqb].
  run_monad. reflexivity.
Qed.

Lemma OnPublicCall_exit_when_not_loaded_witness :
  OnPublicCall (sample_host "" true) "OnGameModeExit" sample_ctx initial_world
  = Some (true, initial_world).
Proof.
  apply (OnPublicCall_exit_when_not_loaded (sample_host "" true) sample_ctx
           initial_world).
  reflexivity.
Defined.

(** ** Lifecycle operations *)

(** C5: loadGamemode called while the game mode is loaded, and
    unloadGamemode called while it is not, return at once: no call is made
    (no filterscript request, no runtime load, no GameMode::Load, no
    GameMode::Unload) and the world is unchanged. *)
Theorem lifecycle_noop_in_target_state (h : Host) (w_loaded w_unloaded : world) :
  gamemode_loaded w_loaded = true ->
  gamemode_loaded w_unloaded = false ->
  loadGamemode h w_loaded = Some (tt, w_loaded) /\
  unloadGamemode h w_unloaded = Some (tt, w_unloaded).
Proof.
  intros Hl Hu. unfold loadGamemode, unloadGamemode, GameMode.IsLoaded.
  unfold bind, get. rewrite Hl, Hu. split; reflexivity.
Qed.

Lemma lifecycle_noop_in_target_state_witness :
  loadGamemode (sample_host "a.dbg" true) loaded_world = Some (tt, loaded_world) /\
  unloadGamemode (sample_host "a.dbg" true) initial_world
  = Some (tt, initial_world).
Proof.
  apply (lifecycle_noop_in_target_state (sample_host "a.dbg" true)
           loaded_world initial_world); reflexivity.
Defined.

(** C7: when the game mode is not loaded, loadGamemode returns and its
    calls are, in this order: the request for the bootstrap filterscript
    (only if it was not requested before), the load of the managed runtime
    (only if it is not loaded) with the entry assembly
    <plugin-binary-directory>/gamemode/<namespace>.dll, the configured
    codepage, the calls of the symbol conversion, the banner and
    GameMode::Load followed by the line that reports its result. *)
Theorem loadGamemode_order (h : Host) (w : world) :
  gamemode_loaded w = false ->
  exists (sym : list event) (w' : world),
    (forall w0, convertSymbols h w0 = Some (tt, add_trace sym w0)) /\
    forallb symbol_event sym = true /\
    loadGamemode h w = Some (tt, w') /\
    trace w'
    = (trace w
         ++ (if filterscript_loaded w then []
             else [EvSendRconCommand "loadfs empty"])
         ++ (if mono_loaded w then []
             else [EvMonoRuntimeLoad (cfg_mono_assembly_dir h)
                     (cfg_mono_config_dir h) (cfg_trace_level h)
                     (plugin_binary_directory h ++ "/gamemode/"
                        ++ cfg_gamemode_namespace h ++ ".dll")])
         ++ [EvSetCodepage (cfg_codepage h)]
         ++ sym
         ++ [EvLogprintf "Gamemode";
             EvLogprintf "---------------";
             EvLogprintf ("Loading gamemode: " ++ cfg_gamemode_namespace h
                            ++ ":" ++ cfg_gamemode_class h);
             EvGameModeLoad (cfg_gamemode_namespace h) (cfg_gamemode_class h);
             EvLogprintf (if gamemode_loaded w' then "  Loaded."
                          else "  Failed.");
             EvLogprintf ""])%list.
Proof.
  intros Hgm.
  destruct (loadGamemode_runs h w Hgm)
    as (sym & w' & Hsym & Hconv & Hrun & Htrace & Hok & _).
  exists sym, w'. repeat split; try assumption.
  cbv zeta in Htrace, Hok. rewrite Htrace, Hok.
  unfold filterscript_request, runtime_load, load_banner.
  norm_trace. reflexivity.
Qed.

Lemma loadGamemode_order_witness :
  exists w' : world,
    loadGamemode (sample_host "" true) initial_world = Some (tt, w') /\
    trace w'
    = [EvSendRconCommand "loadfs empty";
       EvMonoRuntimeLoad "mono/lib" "mono/etc" "error"
         "/srv/samp/gamemode/TestMode.dll";
       EvSetCodepage 1252;
       EvLogprintf "Gamemode";
       EvLogprintf "---------------";
       EvLogprintf "Loading gamemode: TestMode:GameMode";
       EvGameModeLoad "TestMode" "GameMode";
       EvLogprintf "  Loaded.";
       EvLogprintf ""].
Proof.
  destruct (loadGamemode_order (sample_host "" true) initial_world eq_refl)
    as (sym & w' & Hconv & _ & Hrun & Htrace).
  exists w'. split; [exact Hrun|].
  specialize (Hconv initial_world). vm_compute in Hconv.
  vm_compute in Hrun.
  injection Hrun as Hw'. subst w'. reflexivity.
Defined.

(** C6: when "OnGameModeInit" arrives while the game mode is not loaded,
    OnPublicCall runs the load sequence and then, if the game mode is
    loaded after it (GameMode::Load succeeded), forwards the init event
    itself to GameMode::ProcessPublicCall as its last call. *)
Theorem OnPublicCall_init_forwards_init (h : Host) (ctx : call_context)
    (w : world) :
  gamemode_loaded w = false ->
  exists (history : list event) (w1 : world),
    loadGamemode h w = Some (tt, w1) /\
    trace w1
    = (history
         ++ [EvGameModeLoad (cfg_gamemode_namespace h) (cfg_gamemode_class h);
             EvLogprintf (if gamemode_loaded w1 then "  Loaded."
                          else "  Failed.");
             EvLogprintf ""])%list /\
    gamemode_loaded w1 = gamemode_load_succeeds h history /\
    OnPublicCall h "OnGameModeInit" ctx w
    = Some (true,
            add_trace (if gamemode_loaded w1
                       then [EvGameModeProcessPublicCall "OnGameModeInit" ctx]
                       else []) w1).
Proof.
  intros Hgm.
  destruct (loadGamemode_runs h w Hgm)
    as (sym & w1 & _ & _ & Hrun & Htrace & Hok & _).
  cbv zeta in Htrace, Hok.
  eexists; exists w1. split; [exact Hrun|].
  split; [rewrite Hok; exact Htrace|].
  split; [exact Hok|].
  unfold OnPublicCall. rewrite strcmp_refl. cbn [Z.eqb].
  unfold bind at 1. unfold bind at 1. rewrite Hrun.
  unfold GameMode.IsLoaded, GameMode.ProcessPublicCall, when, bind, get, ret,
    emit, modify.
  destruct (gamemode_loaded w1); [reflexivity|].
  now rewrite add_trace_nil.
Qed.

Lemma OnPublicCall_init_forwards_init_witness :
  exists w1 : world,
    loadGamemode (sample_host "" true) initial_world = Some (tt, w1) /\
    OnPublicCall (sample_host "" true) "OnGameModeInit" sample_ctx initial_world
    = Some (true,
            add_trace [EvGameModeProcessPublicCall "OnGameModeInit" sample_ctx]
              w1).
Proof.
  destruct (OnPublicCall_init_forwards_init (sample_host "" true) sample_ctx
              initial_world eq_refl)
    as (history & w1 & Hrun & _ & _ & Hcall).
  exists w1. split; [exact Hrun|].
  rewrite Hcall. vm_compute in Hrun. injection Hrun as Hw1. subst w1.
  reflexivity.
Defined.

(** ** Attach and detach *)

(** C8: Unload calls GameMode::Unload, then MonoRuntime::Unload, then
    sampgdk::Unload, in every world: also when the game mode is not
    loaded.  Neither handle is loaded afterwards. *)
Theorem Unload_order (w : world) :
  exists w' : world,
    Unload w = Some (tt, w') /\
    trace w' = (trace w ++ [EvGameModeUnload; EvMonoRuntimeUnload;
                            EvSampgdkUnload])%list /\
    gamemode_loaded w' = false /\
    mono_loaded w' = false /\
    filterscript_loaded w' = filterscript_loaded w.
Proof.
  destruct w as [fs amxf gm mono tr].
  unfold Unload. run_monad. norm_trace.
  eexists; split; [reflexivity|]. repeat split; reflexivity.
Qed.

(** C9: Load returns the result of sampgdk::Load.  When that is false,
    sampgdk::Load is the only call made and no state is written: the
    export table is not read and the configuration is not read.  When it
    is true, the export table entry is stored, the banner is logged and
    the configuration is read. *)
Theorem Load_result (h : Host) (ppData : list Z) (w : world) :
  let ok := sampgdk_load_succeeds h ppData in
  Load h ppData w
  = Some (ok,
          if ok
          then add_trace
                 [EvLogprintf "";
                  EvLogprintf "SampSharp Plugin";
                  EvLogprintf "----------------";
                  EvLogprintf ("v" ++ PLUGIN_VERSION h
                                 ++ ", (C)2014-2015 Tim Potze");
                  EvLogprintf "";
                  EvConfigRead]
                 (set_pAMXFunctions (nth (PLUGIN_DATA_AMX_EXPORTS h) ppData 0)
                    (add_trace [EvSampgdkLoad ppData] w))
          else add_trace [EvSampgdkLoad ppData] w).
Proof.
  cbv zeta. destruct w as [fs amxf gm mono tr].
  unfold Load. run_monad.
  destruct (sampgdk_load_succeeds h ppData); cbn [negb]; norm_trace;
    reflexivity.
Qed.

(** ** The bootstrap filterscript across a process lifetime *)

Lemma bool_le_refl (b : bool) : Bool.le b b.
Proof. now destruct b. Qed.

Lemma bool_le_trans (a b c : bool) : Bool.le a b -> Bool.le b c -> Bool.le a c.
Proof. destruct a, b, c; simpl; auto; discriminate. Qed.

Lemma loadfs_step_refl (w : world) : loadfs_step w w.
Proof. split; [auto | apply bool_le_refl]. Qed.

Lemma loadfs_step_trans (w1 w2 w3 : world) :
  loadfs_step w1 w2 -> loadfs_step w2 w3 -> loadfs_step w1 w3.
Proof.
  intros [H12 L12] [H23 L23]. split; [auto | eapply bool_le_trans; eauto].
Qed.

Lemma loadfs_step_add_trace (evs : list event) (w : world) :
  count is_loadfs evs = 0%nat -> loadfs_step w (add_trace evs w).
Proof.
  intros H0. split; [|apply bool_le_refl].
  unfold loadfs_inv, add_trace; cbn [trace filterscript_loaded].
  rewrite count_app, H0. lia.
Qed.

Lemma loadfs_step_calls (evs : list event) (w w' : world) :
  trace w' = (trace w ++ evs)%list ->
  count is_loadfs evs = 0%nat ->
  filterscript_loaded w' = filterscript_loaded w ->
  loadfs_step w w'.
Proof.
  intros Ht H0 Hf. unfold loadfs_step, loadfs_inv.
  rewrite Ht, Hf, count_app, H0.
  split; [lia | apply bool_le_refl].
Qed.

(** Closes a step whose world is written with [add_trace] and the setters
    of the handles' flags. *)
Ltac calls_only :=
  eapply loadfs_step_calls;
  [ cbn [trace add_trace set_gamemode_loaded set_mono_loaded
         set_pAMXFunctions];
    rewrite <- ?app_assoc; reflexivity
  | reflexivity
  | reflexivity ].

Lemma symbol_event_not_loadfs (e : event) :
  symbol_event e = true -> is_loadfs e = false.
Proof. destruct e; simpl; try reflexivity; discriminate. Qed.

Section ProcessLifetime.

Variable h : Host.

Lemma loadGamemode_step (w : world) :
  exists w' : world, loadGamemode h w = Some (tt, w') /\ loadfs_step w w'.
Proof.
  destruct (gamemode_loaded w) eqn:Hgm.
  - exists w. split; [|apply loadfs_step_refl].
    unfold loadGamemode, GameMode.IsLoaded, bind, get. now rewrite Hgm.
  - destruct (loadGamemode_runs h w Hgm)
      as (sym & w' & Hsym & _ & Hrun & Htrace & _ & Hfs & _).
    exists w'. split; [exact Hrun|].
    cbv zeta in Htrace.
    split; [|rewrite Hfs; now destruct (filterscript_loaded w)].
    unfold loadfs_inv. rewrite Htrace, Hfs, !count_app.
    rewrite (count_none _ _ sym symbol_event_not_loadfs Hsym).
    unfold filterscript_request, runtime_load, load_banner.
    destruct (filterscript_loaded w), (mono_loaded w); cbn; lia.
Qed.

Lemma unloadGamemode_step (w : world) :
  exists w' : world, unloadGamemode h w = Some (tt, w') /\ loadfs_step w w'.
Proof.
  destruct (gamemode_loaded w) eqn:Hgm.
  - eexists. split; [apply (unloadGamemode_runs h w Hgm)|].
    unfold unload_banner. calls_only.
  - exists w. split; [|apply loadfs_step_refl].
    unfold unloadGamemode, GameMode.IsLoaded, bind, get. now rewrite Hgm.
Qed.

Lemma forward_step (name : string) (ctx : call_context) (w : world) :
  exists w' : world,
    bind GameMode.IsLoaded
      (fun loaded =>
         bind (when loaded (GameMode.ProcessPublicCall name ctx))
           (fun _ => ret true)) w
    = Some (true, w') /\
    loadfs_step w w'.
Proof.
  unfold GameMode.IsLoaded, GameMode.ProcessPublicCall, when, bind, get, ret,
    emit, modify.
  destruct (gamemode_loaded w).
  - eexists; split; [reflexivity|]. now apply loadfs_step_add_trace.
  - eexists; split; [reflexivity|]. apply loadfs_step_refl.
Qed.

Lemma OnPublicCall_step (name : string) (ctx : call_context) (w : world) :
  exists w' : world,
    OnPublicCall h name ctx w = Some (true, w') /\ loadfs_step w w'.
Proof.
  unfold OnPublicCall.
  assert (Hpre : exists w1 : world,
    (if strcmp name "OnGameModeInit" =? 0 then loadGamemode h
     else bind GameMode.IsLoaded
            (fun loaded =>
               when (loaded && (strcmp name "OnGameModeExit" =? 0))
                 (bind (GameMode.ProcessPublicCall name ctx)
                    (fun _ => unloadGamemode h)))) w = Some (tt, w1) /\
    loadfs_step w w1).
  { destruct (strcmp name "OnGameModeInit" =? 0); [apply loadGamemode_step|].
    unfold GameMode.IsLoaded, bind at 1, get.
    destruct (gamemode_loaded w && (strcmp name "OnGameModeExit" =? 0));
      cbn [when].
    - unfold GameMode.ProcessPublicCall. rewrite bind_emit.
      destruct (unloadGamemode_step
                  (add_trace [EvGameModeProcessPublicCall name ctx] w))
        as (w1 & Hrun & Hstep).
      exists w1. split; [exact Hrun|].
      eapply loadfs_step_trans; [|exact Hstep].
      now apply loadfs_step_add_trace.
    - exists w. split; [reflexivity | apply loadfs_step_refl]. }
  destruct Hpre as (w1 & Hrun1 & Hstep1).
  destruct (forward_step name ctx w1) as (w' & Hrun2 & Hstep2).
  exists w'. split; [|eapply loadfs_step_trans; eauto].
  unfold bind at 1. rewrite Hrun1. exact Hrun2.
Qed.

Lemma run_call_step (c : host_call) (w : world) :
  exists w' : world, run_call h c w = Some (tt, w') /\ loadfs_step w w'.
Proof.
  destruct c as [ppData| | |name ctx]; cbn [run_call].
  - unfold Load, sampgdk.Load, Config.Read, logprintf.
    unfold bind at 1. unfold bind at 1. rewrite bind_emit. unfold ret at 1.
    destruct (sampgdk_load_succeeds h ppData); cbn [negb].
    + unfold bind, modify, emit, ret.
      eexists; split; [reflexivity|]. calls_only.
    + unfold bind, ret. eexists; split; [reflexivity|]. calls_only.
  - unfold Unload, GameMode.Unload, MonoRuntime.Unload, sampgdk.Unload.
    unfold bind, modify, emit. eexists; split; [reflexivity|]. calls_only.
  - unfold ProcessTick, GameMode.ProcessTick, sampgdk.ProcessTick.
    unfold bind, modify, emit. eexists; split; [reflexivity|]. calls_only.
  - destruct (OnPublicCall_step name ctx w) as (w' & Hrun & Hstep).
    exists w'. split; [|exact Hstep]. unfold bind. now rewrite Hrun.
Qed.

(** Every sequence of calls returns, in a world that follows the one it
    started in. *)
Lemma run_calls_step (cs : list host_call) :
  forall w : world,
    exists w' : world, run_calls h cs w = Some (tt, w') /\ loadfs_step w w'.
Proof.
  induction cs as [|c cs IH]; intros w; cbn [run_calls].
  - exists w. split; [reflexivity | apply loadfs_step_refl].
  - destruct (run_call_step c w) as (w1 & Hrun1 & Hstep1).
    destruct (IH w1) as (w' & Hrun & Hstep).
    exists w'. split; [|eapply loadfs_step_trans; eauto].
    unfold bind. now rewrite Hrun1.
Qed.

(** C4: in every sequence of calls of the host (attach, detach, tick and
    public calls) from the start of the process, the bootstrap filterscript
    is requested at most once: the number of requests is 1 if the flag is
    set and 0 if it is not, and once the flag is set it stays set through
    every further sequence of calls. *)
Theorem filterscript_requested_at_most_once (cs cs_more : list host_call) :
  exists w w' : world,
    run_calls h cs initial_world = Some (tt, w) /\
    run_calls h cs_more w = Some (tt, w') /\
    count is_loadfs (trace w)
    = (if filterscript_loaded w then 1%nat else 0%nat) /\
    (count is_loadfs (trace w') <= 1)%nat /\
    Bool.le (filterscript_loaded w) (filterscript_loaded w').
Proof.
  destruct (run_calls_step cs initial_world) as (w & Hrun & Hinv & _).
  destruct (run_calls_step cs_more w) as (w' & Hrun' & Hinv' & Hle).
  exists w, w'. repeat split; try assumption.
  - apply Hinv. reflexivity.
  - assert (H : loadfs_inv w') by (apply Hinv', Hinv; reflexivity).
    unfold loadfs_inv in H. rewrite H.
    destruct (filterscript_loaded w'); lia.
Qed.

End ProcessLifetime.

(** Two init/exit cycles and a detach on the sample host: one request. *)
Example two_cycles_one_request :
  exists w : world,
    run_calls (sample_host "a.dbg  b.dbg" true)
      [CallLoad [];
       CallOnPublicCall "OnGameModeInit" sample_ctx;
       CallOnPublicCall "OnPlayerConnect" sample_ctx;
       CallOnPublicCall "OnGameModeExit" sample_ctx;
       CallOnPublicCall "OnGameModeInit" sample_ctx;
       CallProcessTick;
       CallOnPublicCall "OnGameModeExit" sample_ctx;
       CallUnload] initial_world = Some (tt, w) /\
    count is_loadfs (trace w) = 1%nat /\
    count is_ProcessPublicCall (trace w) = 5%nat /\
    count is_GameModeUnload (trace w) = 3%nat.
Proof. eexists. split; [vm_compute; reflexivity|]. repeat split. Qed.

(** ** Symbol conversion *)

(** The calls of [convertSymbols] for the list [a.dbg  b.dbg] (two spaces)
    when [a.dbg] can be opened and [b.dbg] cannot: [std::getline] yields
    the three names [a.dbg], the empty name between the two spaces, and
    [b.dbg]. *)
Lemma convertSymbols_a_b (h : Host) (w : world) :
  Config.GetSymbolFiles h = "a.dbg  b.dbg" ->
  file_openable h (PathUtil.GetGameModeDirectory h ++ "a.dbg") = true ->
  file_openable h (PathUtil.GetGameModeDirectory h ++ "b.dbg") = false ->
  convertSymbols h w
  = Some (tt,
          add_trace
            [EvLogprintf "Symbol file generation";
             EvLogprintf "----------------------";
             EvLogprintf "Converting: a.dbg";
             EvMonoConvertSymbols (PathUtil.GetGameModeDirectory h ++ "a.dbg");
             EvLogprintf "  Converted.";
             EvLogprintf "Converting: ";
             EvLogprintf "  Failed.";
             EvLogprintf "Converting: b.dbg";
             EvLogprintf "  Failed.";
             EvLogprintf " Converted 1 files.";
             EvLogprintf ""] w).
Proof.
  intros Hsym Ha Hb. unfold convertSymbols. rewrite Hsym.
  cbn [String.length Z.of_nat Z.ltb Z.compare Pos.of_succ_nat Pos.succ when].
  unfold logprintf, mono_convert_symbols. rewrite !bind_emit.
  unfold bind at 1.
  cbn [convertSymbols_loop getline getline_chars Ascii.eqb Bool.eqb].
  unfold logprintf, mono_convert_symbols.
  cbn [String.eqb Ascii.eqb Bool.eqb orb append].
  rewrite Ha, Hb. cbn [negb orb].
  rewrite !bind_emit. cbn [ret Z.add Pos.add].
  unfold ret. rewrite !bind_emit. unfold emit, modify.
  rewrite !add_trace_app. reflexivity.
Qed.

(** C3 (as amended): with an empty configured list, convertSymbols makes no
    call at all (no log line, no conversion).  With the list
    [a.dbg  b.dbg] (two spaces) where [a.dbg] can be opened and [b.dbg]
    cannot, one conversion is made and a count of 1 is reported, and two
    failures are logged: one for the empty name between the two spaces and
    one for [b.dbg].  loadGamemode, when the game mode is not loaded, goes
    on to call GameMode::Load after these calls. *)
Theorem convertSymbols_empty_and_two_files (h_empty h : Host)
    (w w_load : world) :
  Config.GetSymbolFiles h_empty = "" ->
  Config.GetSymbolFiles h = "a.dbg  b.dbg" ->
  file_openable h (PathUtil.GetGameModeDirectory h ++ "a.dbg") = true ->
  file_openable h (PathUtil.GetGameModeDirectory h ++ "b.dbg") = false ->
  gamemode_loaded w_load = false ->
  let calls :=
    [EvLogprintf "Symbol file generation";
     EvLogprintf "----------------------";
     EvLogprintf "Converting: a.dbg";
     EvMonoConvertSymbols (PathUtil.GetGameModeDirectory h ++ "a.dbg");
     EvLogprintf "  Converted.";
     EvLogprintf "Converting: ";
     EvLogprintf "  Failed.";
     EvLogprintf "Converting: b.dbg";
     EvLogprintf "  Failed.";
     EvLogprintf " Converted 1 files.";
     EvLogprintf ""] in
  convertSymbols h_empty w = Some (tt, w) /\
  convertSymbols h w = Some (tt, add_trace calls w) /\
  count is_convert_call calls = 1%nat /\
  count is_failure_log calls = 2%nat /\
  exists (before : list event) (w' : world),
    loadGamemode h w_load = Some (tt, w') /\
    trace w'
    = (trace w_load ++ before ++ calls
         ++ load_banner h
         ++ [EvGameModeLoad (cfg_gamemode_namespace h) (cfg_gamemode_class h);
             EvLogprintf (if gamemode_loaded w' then "  Loaded."
                          else "  Failed.");
             EvLogprintf ""])%list.
Proof.
  intros Hempty Hsym Ha Hb Hgm calls.
  split; [|split; [|split; [|split]]].
  - unfold convertSymbols. now rewrite Hempty.
  - apply convertSymbols_a_b; assumption.
  - reflexivity.
  - reflexivity.
  - destruct (loadGamemode_runs h w_load Hgm)
      as (sym & w' & _ & Hconv & Hrun & Htrace & Hok & _).
    cbv zeta in Htrace, Hok.
    assert (Hcalls : sym = calls).
    { specialize (Hconv initial_world).
      rewrite (convertSymbols_a_b h initial_world Hsym Ha Hb) in Hconv.
      injection Hconv as Hconv. symmetry. exact Hconv. }
    exists (filterscript_request w_load ++ runtime_load h w_load
              ++ [EvSetCodepage (cfg_codepage h)])%list, w'.
    split; [exact Hrun|].
    rewrite Htrace, Hok, Hcalls. norm_trace. reflexivity.
Qed.

Lemma convertSymbols_empty_and_two_files_witness :
  convertSymbols (sample_host "" true) initial_world = Some (tt, initial_world) /\
  exists w' : world,
    convertSymbols (sample_host "a.dbg  b.dbg" true) initial_world
    = Some (tt, w') /\
    count is_convert_call (trace w') = 1%nat /\
    count is_failure_log (trace w') = 2%nat.
Proof.
  destruct (convertSymbols_empty_and_two_files
              (sample_host "" true) (sample_host "a.dbg  b.dbg" true)
              initial_world initial_world
              eq_refl eq_refl eq_refl eq_refl eq_refl)
    as (Hempty & Hrun & Hconv & Hfail & _).
  split; [exact Hempty|].
  eexists. split; [exact Hrun|].
  split; [exact Hconv | exact Hfail].
Defined.

(** C3 as stated fails: for the list [a.dbg  b.dbg] with [a.dbg] openable
    and [b.dbg] not, one conversion is made but two failures are logged,
    not one. *)
Lemma convertSymbols_one_failure_counterexample :
  Config.GetSymbolFiles (sample_host "a.dbg  b.dbg" true) = "a.dbg  b.dbg" /\
  file_openable (sample_host "a.dbg  b.dbg" true)
    (PathUtil.GetGameModeDirectory (sample_host "a.dbg  b.dbg" true) ++ "a.dbg")
  = true /\
  file_openable (sample_host "a.dbg  b.dbg" true)
    (PathUtil.GetGameModeDirectory (sample_host "a.dbg  b.dbg" true) ++ "b.dbg")
  = false /\
  exists w' : world,
    convertSymbols (sample_host "a.dbg  b.dbg" true) initial_world
    = Some (tt, w') /\
    count is_convert_call (trace w') = 1%nat /\
    count is_failure_log (trace w') = 2%nat /\
    count is_failure_log (trace w') <> 1%nat.
Proof.
  repeat split; try reflexivity.
  eexists. split; [vm_compute; reflexivity|].
  repeat split; try reflexivity.
  vm_compute. discriminate.
Qed.

(** * Further properties of main.cpp *)

(** ** The symbol list, name by name *)



Lemma getlines_length (fuel : nat) :
  forall stream : string,
    (List.length (getlines fuel stream) <= String.length stream)%nat.
Proof.
  induction fuel as [|fuel IH]; intros stream; cbn [getlines]; [cbn; lia|].
  destruct stream as [|c s]; cbn [getline]; [cbn; lia|].
  pose proof (getline_chars_shorter " " c s) as Hrest.
  destruct (getline_chars " " (String c s)) as [file rest].
  cbn [snd] in Hrest. specialize (IH rest).
  cbn [List.length String.length]. lia.
Qed.

(** The loop, name by name: its calls are those of the body for each name
    that [std::getline] yields, and its result counts the names converted. *)
Lemma convertSymbols_loop_calls (h : Host) :
  forall (fuel : nat) (stream : string) (n : Z) (w : world),
    (String.length stream < fuel)%nat ->
    convertSymbols_loop h fuel stream n w
    = Some (n + Z.of_nat
                  (List.length (filter (name_converts h) (getlines fuel stream))),
            add_trace (flat_map (name_calls h) (getlines fuel stream)) w).
Proof.
  induction fuel as [|fuel IH]; intros stream n w Hlen; [lia|].
  destruct stream as [|c s].
  - cbn. now rewrite add_trace_nil, Z.add_0_r.
  - cbn [convertSymbols_loop getlines getline].
    pose proof (getline_chars_shorter " " c s) as Hrest.
    destruct (getline_chars " " (String c s)) as [file rest].
    cbn [snd] in Hrest. cbn [String.length] in Hlen.
    assert (Hlt : (String.length rest < fuel)%nat) by lia.
    assert (Htest : ((file =? "")%string
                     || negb (file_openable h
                                (PathUtil.GetGameModeDirectory h ++ file)))
                    = negb (name_converts h file))
      by (unfold name_converts; now rewrite negb_involutive).
    rewrite Htest. cbn [flat_map filter]. unfold name_calls at 1.
    unfold logprintf, mono_convert_symbols.
    destruct (name_converts h file); cbn [negb];
      rewrite !bind_emit, IH by exact Hlt;
      rewrite !add_trace_app; cbn [app List.length];
      do 2 f_equal; lia.
Qed.

Lemma convertSymbols_calls (h : Host) (w : world) :
  Config.GetSymbolFiles h <> "" ->
  convertSymbols h w
  = Some (tt,
          add_trace
            ([EvLogprintf "Symbol file generation";
              EvLogprintf "----------------------"]
             ++ flat_map (name_calls h) (symbol_names h)
             ++ [EvLogprintf
                   (" Converted "
                    ++ fmt_d (Z.of_nat
                                (List.length
                                   (filter (name_converts h) (symbol_names h))))
                    ++ " files.");
                 EvLogprintf ""]) w).
Proof.
  intros Hne. unfold convertSymbols, symbol_names.
  destruct (Config.GetSymbolFiles h) as [|c s] eqn:Hsym; [contradiction|].
  cbn [String.length Z.of_nat Z.ltb Z.compare when].
  unfold logprintf. rewrite !bind_emit. unfold bind at 1.
  rewrite convertSymbols_loop_calls by (cbn [String.length]; lia).
  rewrite !bind_emit. unfold emit, modify. rewrite !add_trace_app.
  cbn [Z.add]. reflexivity.
Qed.

Lemma convertSymbols_nothing (h : Host) (w : world) :
  Config.GetSymbolFiles h = "" -> convertSymbols h w = Some (tt, w).
Proof. intros Hsym. unfold convertSymbols. now rewrite Hsym. Qed.

Lemma name_calls_conversions (h : Host) (names : list string) :
  count is_convert_call (flat_map (name_calls h) names)
  = List.length (filter (name_converts h) names).
Proof.
  induction names as [|file names IH]; [reflexivity|].
  cbn [flat_map filter]. rewrite count_app, IH.
  unfold name_calls. destruct (name_converts h file); reflexivity.
Qed.

Lemma name_calls_one_line (h : Host) (file : string) :
  filter is_converting_log (name_calls h file)
  = [EvLogprintf ("Converting: " ++ file)].
Proof.
  unfold name_calls.
  assert (Hp : is_converting_log (EvLogprintf ("Converting: " ++ file)) = true)
    by (cbn; now destruct file).
  cbn [filter]. rewrite Hp. now destruct (name_converts h file).
Qed.

Lemma name_calls_one_outcome (h : Host) (file : string) :
  (count is_convert_call (name_calls h file)
   + count is_failure_log (name_calls h file))%nat = 1%nat.
Proof. unfold name_calls. now destruct (name_converts h file). Qed.

Lemma name_calls_outcomes (h : Host) (names : list string) :
  count is_converting_log (flat_map (name_calls h) names)
  = (count is_convert_call (flat_map (name_calls h) names)
     + count is_failure_log (flat_map (name_calls h) names))%nat.
Proof.
  induction names as [|file names IH]; [reflexivity|].
  cbn [flat_map]. rewrite !count_app, IH.
  pose proof (name_calls_one_outcome h file) as Hone.
  unfold count at 1. rewrite name_calls_one_line. cbn [List.length]. lia.
Qed.








(** X1: for a non-empty symbol list, the count that convertSymbols reports
    in its last line but one is the number of mono_convert_symbols calls it
    made before, and it is at most the number of characters of the list. *)
Theorem convertSymbols_report_counts_conversions (h : Host) (w : world) :
  Config.GetSymbolFiles h <> "" ->
  exists (evs : list event) (k : nat),
    convertSymbols h w
    = Some (tt,
            add_trace
              (evs ++ [EvLogprintf (" Converted " ++ fmt_d (Z.of_nat k)
                                      ++ " files.");
                       EvLogprintf ""]) w) /\
    count is_convert_call evs = k /\
    (k <= String.length (Config.GetSymbolFiles h))%nat.
Proof.
  intros Hne.
  exists ([EvLogprintf "Symbol file generation";
           EvLogprintf "----------------------"]
          ++ flat_map (name_calls h) (symbol_names h))%list,
         (List.length (filter (name_converts h) (symbol_names h))).
  split; [|split].
  - rewrite (convertSymbols_calls h w Hne), <- app_assoc. reflexivity.
  - rewrite count_app, name_calls_conversions. reflexivity.
  - etransitivity; [apply filter_length_le|].
    unfold symbol_names. apply getlines_length.
Qed.

Lemma convertSymbols_report_counts_conversions_witness :
  exists (evs : list event) (k : nat),
    convertSymbols (sample_host "a.dbg  b.dbg" true) initial_world
    = Some (tt,
            add_trace
              (evs ++ [EvLogprintf (" Converted " ++ fmt_d (Z.of_nat k)
                                      ++ " files.");
                       EvLogprintf ""]) initial_world) /\
    count is_convert_call evs = k /\
    (k <= 12)%nat.
Proof.
  apply (convertSymbols_report_counts_conversions
           (sample_host "a.dbg  b.dbg" true) initial_world).
  discriminate.
Defined.

(** X2: every name convertSymbols takes up gets one outcome: the number of
    "Converting: ..." lines equals the number of conversion calls plus the
    number of "  Failed." lines, for every symbol list. *)
Theorem convertSymbols_one_outcome_per_name (h : Host) (w : world) :
  exists evs : list event,
    convertSymbols h w = Some (tt, add_trace evs w) /\
    count is_converting_log evs
    = (count is_convert_call evs + count is_failure_log evs)%nat.
Proof.
  destruct (String.string_dec (Config.GetSymbolFiles h) "") as [Hsym|Hne].
  - exists []. split; [|reflexivity].
    now rewrite add_trace_nil, (convertSymbols_nothing h w Hsym).
  - eexists. split; [apply (convertSymbols_calls h w Hne)|].
    pose proof (name_calls_outcomes h (symbol_names h)) as Hout.
    rewrite !count_app.
    change (count is_converting_log
              [EvLogprintf "Symbol file generation";
               EvLogprintf "----------------------"]) with 0%nat.
    change (count is_convert_call
              [EvLogprintf "Symbol file generation";
               EvLogprintf "----------------------"]) with 0%nat.
    change (count is_failure_log
              [EvLogprintf "Symbol file generation";
               EvLogprintf "----------------------"]) with 0%nat.
    set (footer := [EvLogprintf _; EvLogprintf ""]).
    assert (Hf : count is_converting_log footer = 0%nat
                 /\ count is_convert_call footer = 0%nat
                 /\ count is_failure_log footer = 0%nat)
      by (repeat split; reflexivity).
    destruct Hf as (-> & -> & ->). lia.
Qed.



(** ** One public call, for every event and every state *)

Lemma symbol_event_counts (evs : list event) :
  forallb symbol_event evs = true ->
  count is_ProcessPublicCall evs = 0%nat /\
  count is_GameModeLoad evs = 0%nat /\
  count is_GameModeUnload evs = 0%nat /\
  count is_MonoRuntimeLoad evs = 0%nat /\
  count is_loadfs evs = 0%nat.
Proof.
  intros H. repeat split; apply (count_none _ symbol_event evs); try exact H;
    intros e He; destruct e; try reflexivity; discriminate.
Qed.

Lemma symbol_event_delivers (name : string) (ctx : call_context)
    (evs : list event) :
  forallb symbol_event evs = true -> Forall (delivers name ctx) evs.
Proof.
  intros H. apply Forall_forall. intros e Hin.
  rewrite forallb_forall in H. specialize (H e Hin).
  destruct e; try exact I; discriminate.
Qed.

(** What one [OnPublicCall] does, whatever the event and the state. *)
Lemma OnPublicCall_calls (h : Host) (name : string) (ctx : call_context)
    (w : world) :
  exists (evs : list event) (w' : world),
    OnPublicCall h name ctx w = Some (true, w') /\
    trace w' = (trace w ++ evs)%list /\
    count is_ProcessPublicCall evs
    = (if gamemode_loaded w || (starts_load name w && gamemode_loaded w')
       then 1%nat else 0%nat) /\
    Forall (delivers name ctx) evs /\
    count is_GameModeLoad evs = (if starts_load name w then 1%nat else 0%nat) /\
    count is_GameModeUnload evs
    = (if stops_gamemode name w then 1%nat else 0%nat) /\
    count is_MonoRuntimeLoad evs
    = (if starts_load name w && negb (mono_loaded w) then 1%nat else 0%nat) /\
    count is_loadfs evs
    = (if starts_load name w && negb (filterscript_loaded w)
       then 1%nat else 0%nat) /\
    filterscript_loaded w' = filterscript_loaded w || starts_load name w /\
    mono_loaded w' = mono_loaded w || starts_load name w /\
    gamemode_loaded w'
    = (if starts_load name w then gamemode_loaded w'
       else if stops_gamemode name w then false else gamemode_loaded w) /\
    pAMXFunctions w' = pAMXFunctions w.
Proof.
  unfold starts_load, stops_gamemode.
  destruct (String.eqb_spec name "OnGameModeInit") as [->|Hinit].
  - destruct (gamemode_loaded w) eqn:Hgm.
    + exists [EvGameModeProcessPublicCall "OnGameModeInit" ctx],
             (add_trace [EvGameModeProcessPublicCall "OnGameModeInit" ctx] w).
      split.
      { destruct w as [fs amxf gm mono tr]; cbn [gamemode_loaded] in Hgm; subst gm.
        unfold OnPublicCall, loadGamemode. rewrite strcmp_refl.
        cbn [Z.eqb]. run_monad. reflexivity. }
      cbn [add_trace trace filterscript_loaded mono_loaded gamemode_loaded
           pAMXFunctions negb andb orb].
      rewrite Hgm, !orb_false_r.
      repeat split; try reflexivity.
      repeat constructor.
    + destruct (loadGamemode_runs h w Hgm)
        as (sym & w1 & Hsym & _ & Hrun & Htrace & Hok & Hfs & Hmono & Hamx).
      cbv zeta in Htrace, Hok. rewrite <- Hok in Htrace. clear Hok.
      destruct (symbol_event_counts sym Hsym) as (S1 & S2 & S3 & S4 & S5).
      pose proof (symbol_event_delivers "OnGameModeInit" ctx sym Hsym) as Hdel.
      exists ((filterscript_request w ++ runtime_load h w
                 ++ [EvSetCodepage (cfg_codepage h)] ++ sym ++ load_banner h
                 ++ [EvGameModeLoad (cfg_gamemode_namespace h)
                       (cfg_gamemode_class h);
                     EvLogprintf (if gamemode_loaded w1 then "  Loaded."
                                  else "  Failed.");
                     EvLogprintf ""])
                ++ (if gamemode_loaded w1
                    then [EvGameModeProcessPublicCall "OnGameModeInit" ctx]
                    else []))%list,
              (add_trace (if gamemode_loaded w1
                          then [EvGameModeProcessPublicCall "OnGameModeInit" ctx]
                          else []) w1).
      split.
      { unfold OnPublicCall. rewrite strcmp_refl. cbn [Z.eqb].
        unfold bind at 1. unfold bind at 1. rewrite Hrun.
        unfold GameMode.IsLoaded, GameMode.ProcessPublicCall, when, bind, get,
          ret, emit, modify.
        destruct (gamemode_loaded w1); [reflexivity|].
        now rewrite add_trace_nil. }
      cbn [add_trace trace filterscript_loaded mono_loaded gamemode_loaded
           pAMXFunctions negb andb orb].
      rewrite Htrace, Hfs, Hmono, Hamx, !orb_true_r.
      split; [rewrite <- !app_assoc; reflexivity|].
      unfold filterscript_request, runtime_load, load_banner.
      rewrite !count_app, S1, S2, S3, S4, S5.
      split; [destruct (gamemode_loaded w1), (filterscript_loaded w),
                (mono_loaded w); reflexivity|].
      split.
      { rewrite !Forall_app. repeat split; try assumption.
        - destruct (filterscript_loaded w); repeat constructor.
        - destruct (mono_loaded w); repeat constructor.
        - repeat constructor.
        - repeat constructor.
        - repeat constructor.
        - destruct (gamemode_loaded w1); repeat constructor. }
      repeat split;
        destruct (gamemode_loaded w1), (filterscript_loaded w), (mono_loaded w);
        reflexivity.
  - rewrite !andb_false_r. cbn [andb orb].
    destruct (String.eqb_spec name "OnGameModeExit") as [->|Hexit].
    + destruct (gamemode_loaded w) eqn:Hgm.
      * destruct w as [fs amxf gm mono tr]; cbn [gamemode_loaded] in Hgm; subst gm.
        unfold OnPublicCall, unloadGamemode. rewrite !strcmp_eqb.
        cbn [String.eqb Ascii.eqb Bool.eqb]. run_monad. norm_trace.
        eexists _, _. split; [reflexivity|].
        cbn [trace filterscript_loaded mono_loaded gamemode_loaded
             pAMXFunctions].
        split; [reflexivity|].
        repeat split; try reflexivity; try (now destruct fs);
          try (now destruct mono).
        repeat constructor.
      * exists [], w. rewrite Hgm. cbn [andb orb].
        rewrite app_nil_r, ?orb_false_r.
        split; [|repeat split; try reflexivity; try exact Hgm; constructor].
        destruct w as [fs amxf gm mono tr]; cbn [gamemode_loaded] in Hgm; subst gm.
        unfold OnPublicCall. rewrite !strcmp_eqb.
        cbn [String.eqb Ascii.eqb Bool.eqb]. run_monad. reflexivity.
    + rewrite ?andb_false_r, ?orb_false_r.
      exists (if gamemode_loaded w
              then [EvGameModeProcessPublicCall name ctx] else []),
             (add_trace (if gamemode_loaded w
                         then [EvGameModeProcessPublicCall name ctx] else []) w).
      split.
      { unfold OnPublicCall. rewrite !strcmp_eqb.
        destruct (String.eqb_spec name "OnGameModeInit"); [contradiction|].
        destruct (String.eqb_spec name "OnGameModeExit"); [contradiction|].
        destruct w as [fs amxf gm mono tr].
        destruct gm; run_monad; rewrite ?app_nil_r; reflexivity. }
      cbn [add_trace trace filterscript_loaded mono_loaded gamemode_loaded
           pAMXFunctions].
      destruct (gamemode_loaded w); repeat split; try reflexivity;
        repeat constructor.
Qed.

(** X5: for every event and every state, OnPublicCall returns true and
    hands the event to GameMode::ProcessPublicCall at most once: once if
    the game mode was loaded when the call arrived, or if the call was the
    init event and the load it started succeeded, and not at all
    otherwise.  It never hands on another event or other arguments than
    its own. *)
Theorem OnPublicCall_delivery (h : Host) (name : string) (ctx : call_context)
    (w : world) :
  exists (evs : list event) (w' : world),
    OnPublicCall h name ctx w = Some (true, w') /\
    trace w' = (trace w ++ evs)%list /\
    count is_ProcessPublicCall evs
    = (if gamemode_loaded w || (starts_load name w && gamemode_loaded w')
       then 1%nat else 0%nat) /\
    Forall (delivers name ctx) evs.
Proof.
  destruct (OnPublicCall_calls h name ctx w)
    as (evs & w' & Hrun & Htrace & Hcount & Hdel & _).
  exists evs, w'. repeat split; assumption.
Qed.

(** X6: OnPublicCall makes lifecycle calls for the two distinguished
    events only.  GameMode::Load is called once exactly when the init
    event arrives while the game mode is not loaded, and only then are the
    filterscript requested (if it was not) and the runtime loaded (if it
    was not); GameMode::Unload is called once exactly when the exit event
    arrives while the game mode is loaded.  In every other case the three
    lifecycle flags are left as they were. *)
Theorem OnPublicCall_lifecycle_calls (h : Host) (name : string)
    (ctx : call_context) (w : world) :
  exists (evs : list event) (w' : world),
    OnPublicCall h name ctx w = Some (true, w') /\
    trace w' = (trace w ++ evs)%list /\
    count is_GameModeLoad evs = (if starts_load name w then 1%nat else 0%nat) /\
    count is_GameModeUnload evs
    = (if stops_gamemode name w then 1%nat else 0%nat) /\
    count is_MonoRuntimeLoad evs
    = (if starts_load name w && negb (mono_loaded w) then 1%nat else 0%nat) /\
    count is_loadfs evs
    = (if starts_load name w && negb (filterscript_loaded w)
       then 1%nat else 0%nat) /\
    filterscript_loaded w' = filterscript_loaded w || starts_load name w /\
    mono_loaded w' = mono_loaded w || starts_load name w /\
    gamemode_loaded w'
    = (if starts_load name w then gamemode_loaded w'
       else if stops_gamemode name w then false else gamemode_loaded w).
Proof.
  destruct (OnPublicCall_calls h name ctx w)
    as (evs & w' & Hrun & Htrace & _ & _ & H1 & H2 & H3 & H4 & H5 & H6 & H7 & _).
  exists evs, w'. repeat split; assumption.
Qed.

(** X7: when the init event arrives while the game mode is already loaded,
    OnPublicCall starts no second load: its only call is the one that
    hands the init event to GameMode::ProcessPublicCall. *)
Theorem OnPublicCall_init_when_loaded (h : Host) (ctx : call_context)
    (w : world) :
  gamemode_loaded w = true ->
  OnPublicCall h "OnGameModeInit" ctx w
  = Some (true,
          add_trace [EvGameModeProcessPublicCall "OnGameModeInit" ctx] w).
Proof.
  intros Hgm. destruct w as [fs amxf gm mono tr].
  cbn [gamemode_loaded] in Hgm; subst gm.
  unfold OnPublicCall, loadGamemode. rewrite strcmp_refl. cbn [Z.eqb].
  run_monad. reflexivity.
Qed.

Lemma OnPublicCall_init_when_loaded_witness :
  OnPublicCall (sample_host "a.dbg" true) "OnGameModeInit" sample_ctx loaded_world
  = Some (true,
          add_trace [EvGameModeProcessPublicCall "OnGameModeInit" sample_ctx]
            loaded_world).
Proof.
  apply (OnPublicCall_init_when_loaded (sample_host "a.dbg" true) sample_ctx
           loaded_world).
  reflexivity.
Defined.

(** ** A second load attempt *)

Lemma add_trace_inj (evs1 evs2 : list event) (w : world) :
  add_trace evs1 w = add_trace evs2 w -> evs1 = evs2.
Proof.
  intros H. apply (f_equal trace) in H. cbn [add_trace trace] in H.
  now apply app_inv_head in H.
Qed.

(** X8: a load attempt that follows one made while the game mode was not
    loaded does nothing if that one succeeded.  If it failed, the second
    attempt requests no filterscript and loads no runtime, but applies the
    codepage, converts the symbol files and calls GameMode::Load again. *)
Theorem loadGamemode_again (h : Host) (w : world) :
  gamemode_loaded w = false ->
  exists (sym : list event) (w1 w2 : world),
    (forall w0, convertSymbols h w0 = Some (tt, add_trace sym w0)) /\
    loadGamemode h w = Some (tt, w1) /\
    loadGamemode h w1 = Some (tt, w2) /\
    trace w2
    = (trace w1
         ++ (if gamemode_loaded w1 then []
             else [EvSetCodepage (cfg_codepage h)] ++ sym ++ load_banner h
                    ++ [EvGameModeLoad (cfg_gamemode_namespace h)
                          (cfg_gamemode_class h);
                        EvLogprintf (if gamemode_loaded w2 then "  Loaded."
                                     else "  Failed.");
                        EvLogprintf ""]))%list.
Proof.
  intros Hgm.
  destruct (loadGamemode_runs h w Hgm)
    as (sym & w1 & _ & Hconv & Hrun1 & _ & _ & Hfs1 & Hmono1 & _).
  exists sym, w1.
  destruct (gamemode_loaded w1) eqn:Hgm1.
  - exists w1. split; [exact Hconv|]. split; [exact Hrun1|].
    split; [|now rewrite app_nil_r].
    unfold loadGamemode, GameMode.IsLoaded, bind, get. now rewrite Hgm1.
  - destruct (loadGamemode_runs h w1 Hgm1)
      as (sym2 & w2 & _ & Hconv2 & Hrun2 & Htrace2 & Hok2 & _).
    cbv zeta in Htrace2, Hok2. rewrite <- Hok2 in Htrace2.
    assert (Hsame : sym2 = sym).
    { apply (add_trace_inj _ _ initial_world).
      specialize (Hconv initial_world). specialize (Hconv2 initial_world).
      congruence. }
    subst sym2.
    exists w2. split; [exact Hconv|]. split; [exact Hrun1|].
    split; [exact Hrun2|].
    rewrite Htrace2. unfold filterscript_request, runtime_load.
    rewrite Hfs1, Hmono1. rewrite <- !app_assoc. reflexivity.
Qed.

Lemma loadGamemode_again_witness :
  exists w1 w2 : world,
    loadGamemode (sample_host "" false) initial_world = Some (tt, w1) /\
    loadGamemode (sample_host "" false) w1 = Some (tt, w2) /\
    count is_GameModeLoad (trace w2) = 2%nat /\
    count is_MonoRuntimeLoad (trace w2) = 1%nat /\
    count is_loadfs (trace w2) = 1%nat.
Proof.
  destruct (loadGamemode_again (sample_host "" false) initial_world eq_refl)
    as (sym & w1 & w2 & _ & Hrun1 & Hrun2 & _).
  exists w1, w2. split; [exact Hrun1|]. split; [exact Hrun2|].
  vm_compute in Hrun1. injection Hrun1 as Hw1. subst w1.
  vm_compute in Hrun2. injection Hrun2 as Hw2. subst w2.
  repeat split.
Defined.

(** ** Sequences of calls *)

Section Sessions.

Variable h : Host.

(** A property of the world that every allowed call keeps is kept by every
    sequence of allowed calls, and every such sequence returns. *)
Lemma run_calls_inv (I : world -> Prop) (allowed : host_call -> bool) :
  (forall c w, allowed c = true -> I w ->
               exists w', run_call h c w = Some (tt, w') /\ I w') ->
  forall cs w, forallb allowed cs = true -> I w ->
               exists w', run_calls h cs w = Some (tt, w') /\ I w'.
Proof.
  intros Hstep. induction cs as [|c cs IH]; intros w Hcs Hw; cbn [run_calls].
  - exists w. split; [reflexivity | exact Hw].
  - cbn [forallb] in Hcs. apply andb_prop in Hcs as [Hc Hcs].
    destruct (Hstep c w Hc Hw) as (w1 & Hrun1 & Hw1).
    destruct (IH w1 Hcs Hw1) as (w' & Hrun & Hw').
    exists w'. split; [|exact Hw']. unfold bind. now rewrite Hrun1.
Qed.

(** The calls of attach, detach and tick, and the state they leave. *)
Lemma Load_calls (ppData : list Z) (w : world) :
  exists (evs : list event) (w' : world),
    Load h ppData w = Some (sampgdk_load_succeeds h ppData, w') /\
    trace w' = (trace w ++ evs)%list /\
    count is_ProcessPublicCall evs = 0%nat /\
    count is_MonoRuntimeLoad evs = 0%nat /\
    filterscript_loaded w' = filterscript_loaded w /\
    mono_loaded w' = mono_loaded w /\
    gamemode_loaded w' = gamemode_loaded w.
Proof.
  destruct w as [fs amxf gm mono tr]. unfold Load. run_monad.
  destruct (sampgdk_load_succeeds h ppData); norm_trace;
    eexists _, _; (split; [reflexivity|]);
    cbn [trace filterscript_loaded mono_loaded gamemode_loaded];
    repeat split; reflexivity.
Qed.

Lemma ProcessTick_calls (w : world) :
  ProcessTick w
  = Some (tt, add_trace [EvGameModeProcessTick; EvSampgdkProcessTick] w).
Proof.
  unfold ProcessTick, GameMode.ProcessTick, sampgdk.ProcessTick.
  rewrite bind_emit. unfold emit, modify. now rewrite add_trace_app.
Qed.

Lemma Unload_calls (w : world) :
  exists w' : world,
    Unload w = Some (tt, w') /\
    trace w' = (trace w ++ [EvGameModeUnload; EvMonoRuntimeUnload;
                            EvSampgdkUnload])%list /\
    gamemode_loaded w' = false.
Proof.
  destruct w as [fs amxf gm mono tr]. unfold Unload. run_monad. norm_trace.
  eexists. repeat split; reflexivity.
Qed.

Lemma run_call_lifecycle (c : host_call) (w : world) :
  lifecycle_inv w ->
  exists w' : world, run_call h c w = Some (tt, w') /\ lifecycle_inv w'.
Proof.
  unfold lifecycle_inv. intros Hw.
  destruct c as [ppData| | |name ctx]; cbn [run_call].
  - destruct (Load_calls ppData w) as (evs & w' & Hrun & _ & _ & _ & Hf & Hm & Hg).
    exists w'. unfold bind. rewrite Hrun. split; [reflexivity|].
    now rewrite Hf, Hm, Hg.
  - destruct (Unload_calls w) as (w' & Hrun & _ & Hg).
    exists w'. split; [exact Hrun|]. now rewrite Hg.
  - rewrite ProcessTick_calls. eexists. split; [reflexivity|]. exact Hw.
  - destruct (OnPublicCall_calls h name ctx w)
      as (evs & w' & Hrun & _ & _ & _ & _ & _ & _ & _ & Hf & Hm & Hg & _).
    exists w'. unfold bind. rewrite Hrun. split; [reflexivity|].
    rewrite Hf, Hm. rewrite Hg.
    destruct (starts_load name w), (stops_gamemode name w),
      (gamemode_loaded w), (filterscript_loaded w), (mono_loaded w),
      (gamemode_loaded w'); try reflexivity; discriminate.
Qed.

Lemma run_call_mono (c : host_call) (w : world) :
  not_detach c = true ->
  mono_inv w ->
  exists w' : world, run_call h c w = Some (tt, w') /\ mono_inv w'.
Proof.
  unfold mono_inv. intros Hc Hw.
  destruct c as [ppData| | |name ctx]; cbn [run_call]; [| discriminate | |].
  - destruct (Load_calls ppData w) as (evs & w' & Hrun & Ht & _ & Hn & _ & Hm & _).
    exists w'. unfold bind. rewrite Hrun. split; [reflexivity|].
    rewrite Ht, count_app, Hn, Hm, Hw. lia.
  - rewrite ProcessTick_calls. eexists. split; [reflexivity|].
    cbn [add_trace trace mono_loaded]. rewrite count_app, Hw.
    change (count is_MonoRuntimeLoad
              [EvGameModeProcessTick; EvSampgdkProcessTick]) with 0%nat.
    lia.
  - destruct (OnPublicCall_calls h name ctx w)
      as (evs & w' & Hrun & Ht & _ & _ & _ & _ & Hn & _ & _ & Hm & _).
    exists w'. unfold bind. rewrite Hrun. split; [reflexivity|].
    rewrite Ht, count_app, Hn, Hm, Hw.
    destruct (starts_load name w), (mono_loaded w); reflexivity.
Qed.

(** X9: after every sequence of calls of the host from the start of the
    process, the game mode is loaded only if the bootstrap filterscript has
    been requested and the managed runtime is loaded. *)
Theorem gamemode_loaded_needs_runtime (cs : list host_call) :
  exists w : world,
    run_calls h cs initial_world = Some (tt, w) /\
    implb (gamemode_loaded w) (filterscript_loaded w && mono_loaded w) = true.
Proof.
  apply (run_calls_inv lifecycle_inv (fun _ => true)).
  - intros c w _. apply run_call_lifecycle.
  - now apply forallb_forall.
  - reflexivity.
Qed.

(** X10: in every sequence of attach, tick and public calls from the start
    of the process, that is until the plugin is detached, the managed
    runtime is loaded at most once, however many times the game mode is
    loaded and unloaded in between: MonoRuntime::Load has been called once
    if the runtime is loaded and never if it is not. *)
Theorem runtime_loaded_at_most_once (cs : list host_call) :
  forallb not_detach cs = true ->
  exists w : world,
    run_calls h cs initial_world = Some (tt, w) /\
    count is_MonoRuntimeLoad (trace w)
    = (if mono_loaded w then 1%nat else 0%nat) /\
    (count is_MonoRuntimeLoad (trace w) <= 1)%nat.
Proof.
  intros Hcs.
  destruct (run_calls_inv mono_inv not_detach run_call_mono cs initial_world
              Hcs eq_refl) as (w & Hrun & Hw).
  exists w. split; [exact Hrun|]. split; [exact Hw|].
  rewrite Hw. destruct (mono_loaded w); lia.
Qed.

End Sessions.

Lemma runtime_loaded_at_most_once_witness :
  exists w : world,
    run_calls (sample_host "a.dbg" true)
      [CallLoad [];
       CallOnPublicCall "OnGameModeInit" sample_ctx;
       CallOnPublicCall "OnGameModeExit" sample_ctx;
       CallProcessTick;
       CallOnPublicCall "OnGameModeInit" sample_ctx] initial_world
    = Some (tt, w) /\
    count is_MonoRuntimeLoad (trace w)
    = (if mono_loaded w then 1%nat else 0%nat) /\
    (count is_MonoRuntimeLoad (trace w) <= 1)%nat.
Proof.
  apply (runtime_loaded_at_most_once (sample_host "a.dbg" true)).
  reflexivity.
Defined.

Lemma no_call_delivered (cs : list host_call) (evs : list event) :
  count is_ProcessPublicCall evs = 0%nat -> Forall (delivered_from cs) evs.
Proof.
  induction evs as [|e evs IH]; intros H0; constructor.
  - destruct e; try exact I. unfold count in H0. discriminate.
  - apply IH. destruct e; try exact H0. unfold count in H0. discriminate.
Qed.

Lemma public_calls_cons (c : host_call) (cs : list host_call) :
  public_calls (c :: cs) = (public_calls [c] ++ public_calls cs)%list.
Proof. unfold public_calls. cbn [flat_map]. now rewrite app_nil_r. Qed.

Lemma delivered_from_head (c : host_call) (cs : list host_call) (e : event) :
  delivered_from [c] e -> delivered_from (c :: cs) e.
Proof.
  destruct e; try exact (fun H => H). cbn [delivered_from].
  rewrite (public_calls_cons c cs). intros H. apply in_or_app. now left.
Qed.

Lemma delivered_from_tail (c : host_call) (cs : list host_call) (e : event) :
  delivered_from cs e -> delivered_from (c :: cs) e.
Proof.
  destruct e; try exact (fun H => H). cbn [delivered_from].
  rewrite (public_calls_cons c cs). intros H. apply in_or_app. now right.
Qed.

Lemma run_call_delivery (h : Host) (c : host_call) (w : world) :
  exists (evs : list event) (w' : world),
    run_call h c w = Some (tt, w') /\
    trace w' = (trace w ++ evs)%list /\
    (count is_ProcessPublicCall evs <= List.length (public_calls [c]))%nat /\
    Forall (delivered_from [c]) evs.
Proof.
  destruct c as [ppData| | |name ctx]; cbn [run_call].
  - destruct (Load_calls h ppData w) as (evs & w' & Hrun & Ht & Hn & _).
    exists evs, w'. unfold bind. rewrite Hrun.
    repeat split; [exact Ht | rewrite Hn; lia | now apply no_call_delivered].
  - destruct (Unload_calls w) as (w' & Hrun & Ht & _).
    eexists _, w'. repeat split; [exact Hrun | exact Ht | cbn; lia |].
    now apply no_call_delivered.
  - rewrite ProcessTick_calls. eexists _, _.
    repeat split; [cbn; lia | now apply no_call_delivered].
  - destruct (OnPublicCall_calls h name ctx w)
      as (evs & w' & Hrun & Ht & Hn & Hdel & _).
    exists evs, w'. unfold bind. rewrite Hrun.
    repeat split; [exact Ht | |].
    + rewrite Hn. cbn [public_calls flat_map app List.length].
      destruct (_ || _); lia.
    + eapply Forall_impl; [|exact Hdel].
      intros e He. destruct e; try exact I.
      destruct He as [-> ->]. cbn. now left.
Qed.

(** X11: in every sequence of calls of the host, from every state, the
    game mode is handed no more events than the host raised, and every
    event handed to GameMode::ProcessPublicCall is one the host raised in
    that sequence, with the arguments the host gave: attach, detach and
    tick hand on nothing. *)
Theorem delivered_events_were_raised (h : Host) (cs : list host_call) :
  forall w : world,
    exists (evs : list event) (w' : world),
      run_calls h cs w = Some (tt, w') /\
      trace w' = (trace w ++ evs)%list /\
      (count is_ProcessPublicCall evs <= List.length (public_calls cs))%nat /\
      Forall (delivered_from cs) evs.
Proof.
  induction cs as [|c cs IH]; intros w; cbn [run_calls].
  - exists [], w. rewrite app_nil_r.
    repeat split; [cbn; lia | constructor].
  - destruct (run_call_delivery h c w) as (evs1 & w1 & Hrun1 & Ht1 & Hn1 & Hd1).
    destruct (IH w1) as (evs2 & w' & Hrun2 & Ht2 & Hn2 & Hd2).
    exists (evs1 ++ evs2)%list, w'. unfold bind. rewrite Hrun1.
    split; [exact Hrun2|].
    split; [now rewrite Ht2, Ht1, app_assoc|].
    split.
    + rewrite count_app, (public_calls_cons c cs), length_app. lia.
    + apply Forall_app. split.
      * eapply Forall_impl; [|exact Hd1]. intros e. apply delivered_from_head.
      * eapply Forall_impl; [|exact Hd2]. intros e. apply delivered_from_tail.
Qed.

Lemma Load_no_lifecycle_call (h : Host) (ppData : list Z) (w : world) :
  exists (evs : list event) (w' : world),
    Load h ppData w = Some (sampgdk_load_succeeds h ppData, w') /\
    trace w' = (trace w ++ evs)%list /\
    count is_ProcessPublicCall evs = 0%nat /\
    count is_GameModeLoad evs = 0%nat /\
    count is_GameModeUnload evs = 0%nat /\
    gamemode_loaded w' = gamemode_loaded w.
Proof.
  destruct w as [fs amxf gm mono tr]. unfold Load. run_monad.
  destruct (sampgdk_load_succeeds h ppData); norm_trace;
    eexists _, _; (split; [reflexivity|]);
    cbn [trace gamemode_loaded]; repeat split; reflexivity.
Qed.

(** X12: while the game mode is not loaded and the host raises no init
    event, nothing reaches the game mode: through every such sequence of
    calls (detach included) GameMode::ProcessPublicCall and GameMode::Load
    are never called and the game mode stays unloaded. *)
Theorem unloaded_until_init (h : Host) (cs : list host_call) :
  forall w : world,
    forallb not_init cs = true ->
    gamemode_loaded w = false ->
    exists (evs : list event) (w' : world),
      run_calls h cs w = Some (tt, w') /\
      trace w' = (trace w ++ evs)%list /\
      count is_ProcessPublicCall evs = 0%nat /\
      count is_GameModeLoad evs = 0%nat /\
      gamemode_loaded w' = false.
Proof.
  induction cs as [|c cs IH]; intros w Hcs Hgm; cbn [run_calls].
  - exists [], w. rewrite app_nil_r. repeat split; assumption.
  - cbn [forallb] in Hcs. apply andb_prop in Hcs as [Hc Hcs].
    assert (Hstep : exists (evs1 : list event) (w1 : world),
      run_call h c w = Some (tt, w1) /\
      trace w1 = (trace w ++ evs1)%list /\
      count is_ProcessPublicCall evs1 = 0%nat /\
      count is_GameModeLoad evs1 = 0%nat /\
      gamemode_loaded w1 = false).
    { destruct c as [ppData| | |name ctx]; cbn [run_call].
      - destruct (Load_no_lifecycle_call h ppData w)
          as (evs1 & w1 & Hrun & Ht & Hp & Hl & _ & Hg).
        exists evs1, w1. unfold bind. rewrite Hrun.
        repeat split; try assumption. now rewrite Hg.
      - destruct (Unload_calls w) as (w1 & Hrun & Ht & Hg).
        eexists _, w1. split; [exact Hrun|]. split; [exact Ht|].
        repeat split. exact Hg.
      - rewrite ProcessTick_calls. eexists _, _.
        repeat split. exact Hgm.
      - destruct (OnPublicCall_calls h name ctx w)
          as (evs1 & w1 & Hrun & Ht & Hp & _ & Hl & _ & _ & _ & _ & _ & Hg & _).
        exists evs1, w1. unfold bind. rewrite Hrun.
        cbn [not_init] in Hc. unfold starts_load, stops_gamemode in *.
        rewrite Hgm in *. apply negb_true_iff in Hc. rewrite Hc in *.
        cbn [negb andb orb] in *. repeat split; assumption. }
    destruct Hstep as (evs1 & w1 & Hrun1 & Ht1 & Hp1 & Hl1 & Hg1).
    destruct (IH w1 Hcs Hg1) as (evs2 & w' & Hrun2 & Ht2 & Hp2 & Hl2 & Hg2).
    exists (evs1 ++ evs2)%list, w'. unfold bind. rewrite Hrun1.
    split; [exact Hrun2|].
    split; [now rewrite Ht2, Ht1, app_assoc|].
    rewrite !count_app, Hp1, Hp2, Hl1, Hl2. repeat split. exact Hg2.
Qed.

Lemma unloaded_until_init_witness :
  exists (evs : list event) (w' : world),
    run_calls (sample_host "a.dbg" true)
      [CallLoad [];
       CallOnPublicCall "OnPlayerConnect" sample_ctx;
       CallOnPublicCall "OnGameModeExit" sample_ctx;
       CallProcessTick;
       CallUnload] initial_world = Some (tt, w') /\
    trace w' = (trace initial_world ++ evs)%list /\
    count is_ProcessPublicCall evs = 0%nat /\
    count is_GameModeLoad evs = 0%nat /\
    gamemode_loaded w' = false.
Proof.
  apply (unloaded_until_init (sample_host "a.dbg" true)); reflexivity.
Defined.


